(** * ProDy [prody/ensemble.py]: conformational ensembles

    A shallow embedding of the [Ensemble] and [Conformation] classes and of
    [getSumOfWeights], together with the part of NumPy they rely on.

    - NumPy arrays are records of a shape, the elements in row-major order
      and a dtype tag; elements are IEEE binary64 numbers ([PrimFloat]).
    - Python objects that are shared and mutated (arrays, conformation
      views) live in a store indexed by locations; the ensemble holds
      locations, so aliasing between the caller and the ensemble is visible.
    - A method is a function from the store to an outcome (a value or a
      raised exception) and the store at that point: what was mutated before
      an exception stays mutated.
    - [prody.measure] is a separate module: [measure.superimpose] and
      [measure._getRMSD] are parameters of the alignment engine.

    Left out: logging and timing, [__getitem__], [__repr__], [iterCoordsets],
    [getMSF], [showSumOfWeights] and the accessors of a name. Elements of an
    array of another dtype than float64 are carried as binary64 values too;
    [reshape] gives a new array object, where NumPy gives a view on the same
    memory. *)

From Stdlib Require Import PrimFloat Uint63 ZArith.
From stdpp Require Import gmap strings list pretty sorting.

(** ** Exceptions and outcomes *)

Inductive exn :=
  | TypeError
  | ValueError
  | AttributeError
  | IndexError
  | NameError
  | EnsembleError      (* class EnsembleError(Exception) *)
  | DanglingReference. (* a location absent from the store; CPython cannot reach it *)

Inductive outcome (A : Type) :=
  | Ok (a : A)
  | Raise (e : exn).
Arguments Ok {A} a.
Arguments Raise {A} e.

Global Instance exn_eq_dec : EqDecision exn.
Proof. solve_decision. Defined.

(** ** The NumPy fragment *)

Module np.

(** [other c]: any dtype that is not float64; [c] tells whether
    [astype(np.float64)] succeeds on the array ([false]: it raises
    ValueError, as for an array of non-numeric strings). *)
Inductive dtype :=
  | float64
  | other (convertible : bool).

Global Instance dtype_eq_dec : EqDecision dtype.
Proof. solve_decision. Defined.

Record ndarray := mk {
  shape : list nat;
  data : list float;   (* row-major (C order) *)
  dt : dtype
}.

Definition size (s : list nat) : nat := foldr Nat.mul 1 s.
Definition ndim (a : ndarray) : nat := length (shape a).

(** [a.shape[-k]], for k = 1, 2, ... *)
Definition shape_from_end (a : ndarray) (k : nat) : option nat :=
  reverse (shape a) !! (k - 1).

Definition promote (d1 d2 : dtype) : dtype :=
  match d1, d2 with
  | other false, _ | _, other false => other false
  | float64, _ | _, float64 => float64
  | other true, other true => other true
  end.

(** [a.astype(np.float64)]: the source discards the converted array and
    only observes whether the conversion raises. *)
Definition astype_float64 (a : ndarray) : outcome ndarray :=
  match dt a with
  | other false => Raise ValueError
  | _ => Ok (mk (shape a) (data a) float64)
  end.

Definition of_nat (n : nat) : float := PrimFloat.of_uint63 (Uint63.of_Z (Z.of_nat n)).

(** A Python number used as an operand: a 0-d array. *)
Definition scalar (x : float) : ndarray := mk [] [x] float64.

(** [a.reshape(s)] *)
Definition reshape (a : ndarray) (s : list nat) : outcome ndarray :=
  if size s =? length (data a) then Ok (mk s (data a) (dt a)) else Raise ValueError.

(** [np.concatenate((a, b), axis=0)] *)
Definition concatenate (a b : ndarray) : outcome ndarray :=
  match shape a, shape b with
  | n :: sa, m :: sb =>
      if decide (sa = sb)
      then Ok (mk ((n + m) :: sa) (data a ++ data b) (promote (dt a) (dt b)))
      else Raise ValueError
  | _, _ => Raise ValueError
  end.

(** [n] consecutive chunks of [k] elements. *)
Fixpoint chunks {A} (k n : nat) (d : list A) : list (list A) :=
  match n with
  | 0 => []
  | S n' => take k d :: chunks k n' (drop k d)
  end.

Fixpoint tile_data (s reps : list nat) (d : list float) : list float :=
  match s, reps with
  | n :: s', r :: reps' =>
      mjoin (replicate r (mjoin (tile_data s' reps' <$> chunks (size s') n d)))
  | _, _ => d
  end.

(** [np.tile(a, reps)]: the shorter of [a.shape] and [reps] is extended
    with leading ones; axis [i] of the result has length
    [a.shape[i] * reps[i]]. *)
Definition tile (a : ndarray) (reps : list nat) : ndarray :=
  let d := ndim a `max` length reps in
  let s := replicate (d - ndim a) 1 ++ shape a in
  let r := replicate (d - length reps) 1 ++ reps in
  mk (zip_with Nat.mul s r) (tile_data s r (data a)) (dt a).

(** [np.ones(shape)] with a proper shape tuple. *)
Definition ones (s : list nat) : ndarray := mk s (replicate (size s) 1%float) float64.

(** [np.ones(shape, dtype, order)] called with three positional integers,
    as in the source's [np.ones(n_confs, n_atoms, 1)]: the second argument
    is taken as the dtype, and an integer is not a data type. *)
Definition ones_positional (shape dtype order : nat) : outcome ndarray :=
  Raise TypeError.

(** All multi-indices of a shape, in row-major order. *)
Fixpoint indices (s : list nat) : list (list nat) :=
  match s with
  | [] => [[]]
  | n :: s' => i ← seq 0 n; cons i <$> indices s'
  end.

(** Row-major offset of a multi-index; an axis of length 1 is broadcast. *)
Fixpoint offset (s idx : list nat) : nat :=
  match s, idx with
  | n :: s', i :: idx' => (if n =? 1 then 0 else i) * size s' + offset s' idx'
  | _, _ => 0
  end.

(** Element of [a] at a multi-index of a (possibly higher-rank) broadcast
    result: trailing axes are aligned. *)
Definition bget (a : ndarray) (idx : list nat) : float :=
  nth (offset (shape a) (drop (length idx - ndim a) idx)) (data a) 0%float.

Definition bdim (n m : nat) : option nat :=
  if n =? m then Some n else if n =? 1 then Some m else if m =? 1 then Some n else None.

Fixpoint broadcast_rev (s1 s2 : list nat) : option (list nat) :=
  match s1, s2 with
  | [], s | s, [] => Some s
  | n :: s1', m :: s2' => d ← bdim n m; r ← broadcast_rev s1' s2'; Some (d :: r)
  end.

Definition broadcast_shapes (s1 s2 : list nat) : option (list nat) :=
  reverse <$> broadcast_rev (reverse s1) (reverse s2).

(** Element-wise binary operation with broadcasting ([a - b], [a * b], [a / b]). *)
Definition map2 (f : float → float → float) (a b : ndarray) : outcome ndarray :=
  match broadcast_shapes (shape a) (shape b) with
  | Some s => Ok (mk s ((λ idx, f (bget a idx) (bget b idx)) <$> indices s)
                     (promote (dt a) (dt b)))
  | None => Raise ValueError
  end.

Definition map1 (f : float → float) (a : ndarray) : ndarray :=
  mk (shape a) (f <$> data a) (dt a).

(** [np.power(a, 2)] and [np.sqrt(a)] *)
Definition power2 (a : ndarray) : ndarray := map1 (λ x, x * x)%float a.
Definition sqrt (a : ndarray) : ndarray := map1 PrimFloat.sqrt a.

(** Sequential reduction: the first element, then the others added in order. *)
Definition sum_list (l : list float) : float :=
  match l with
  | [] => 0%float
  | x :: l' => foldl PrimFloat.add x l'
  end.

(** [a.sum(k)] *)
Definition sum (k : nat) (a : ndarray) : outcome ndarray :=
  match shape a !! k with
  | None => Raise ValueError
  | Some n =>
      let s := delete k (shape a) in
      Ok (mk s ((λ idx, sum_list ((λ j, bget a (take k idx ++ j :: drop k idx)) <$> seq 0 n))
                  <$> indices s) (dt a))
  end.

(** [a[i]] for a non-negative integer [i] *)
Definition getitem (a : ndarray) (i : nat) : outcome ndarray :=
  match shape a with
  | [] => Raise IndexError
  | n :: s =>
      if i <? n then Ok (mk s (take (size s) (drop (i * size s) (data a))) (dt a))
      else Raise IndexError
  end.

(** [a[i] = v], in place; [v] is broadcast to the shape of [a[i]]. *)
Definition setitem (a : ndarray) (i : nat) (v : ndarray) : outcome ndarray :=
  match shape a with
  | [] => Raise IndexError
  | n :: s =>
      if i <? n then
        if decide (broadcast_shapes s (shape v) = Some s) then
          Ok (mk (shape a)
                 (take (i * size s) (data a) ++ ((bget v <$> indices s)
                    ++ drop (S i * size s) (data a))) (dt a))
        else Raise ValueError
      else Raise IndexError
  end.

(** [a[which]] for a boolean mask over the first axis *)
Definition mask (a : ndarray) (which : list bool) : outcome ndarray :=
  match shape a with
  | [] => Raise IndexError
  | n :: s =>
      if n =? length which then
        let rows := chunks (size s) n (data a) in
        let kept := (λ p, snd p) <$> filter (λ p, fst p = true) (zip which rows) in
        Ok (mk (length kept :: s) (mjoin kept) (dt a))
      else Raise IndexError
  end.

(** Rows of [rows] selected by [which] replaced, in order, by the rows of [new]. *)
Fixpoint replace_rows {A} (which : list bool) (rows new : list A) : list A :=
  match which, rows with
  | true :: which', _ :: rows' =>
      match new with
      | v :: new' => v :: replace_rows which' rows' new'
      | [] => rows
      end
  | false :: which', r :: rows' => r :: replace_rows which' rows' new
  | _, _ => rows
  end.

(** [a[i, which] = v], in place, for a boolean mask over the second axis. *)
Definition setitem_mask (a : ndarray) (i : nat) (which : list bool) (v : ndarray)
  : outcome ndarray :=
  match shape a with
  | n :: m :: s =>
      if (i <? n) && (m =? length which) then
        let cnt := length (filter (λ b, b = true) which) in
        if decide (shape v = cnt :: s) then
          let k := size s in
          let rows := chunks k m (take (m * k) (drop (i * (m * k)) (data a))) in
          Ok (mk (shape a)
                 (take (i * (m * k)) (data a)
                    ++ (mjoin (replace_rows which rows (chunks k cnt (data v)))
                    ++ drop (S i * (m * k)) (data a))) (dt a))
        else Raise ValueError
      else Raise IndexError
  | _ => Raise IndexError
  end.

(** [a.flatten() == 0] *)
Definition flatten_eq0 (a : ndarray) : list bool := (λ x, PrimFloat.eqb x 0) <$> data a.

(** The array is consistent: as many elements as the shape says. *)
Definition wf (a : ndarray) : Prop := length (data a) = size (shape a).

(** A multi-index within the bounds of a shape. *)
Definition valid_index (idx s : list nat) : Prop := Forall2 lt idx s.

End np.

(** ** Python objects and the store *)

Definition loc := positive.

(** The rigid-body operator that [measure.superimpose] returns; [transform]
    reads it as a pair ([t[0]], [t[1]]). *)
Definition transformation : Type := np.ndarray * np.ndarray.

(** An object of the [prody.atomic] classes (AtomGroup, Selection, ...), seen
    through the four accessors that [ensemble.py] calls. *)
Record atoms := Atoms {
  atoms_getCoordinates : np.ndarray;
  atoms_getName : string;
  atoms_getNumOfCoordsets : nat;
  atoms_getActiveCoordsetIndex : nat
}.

(** The owner of a conformation view. One ensemble is modelled, so a
    reference to it carries no data. *)
Inductive ensemble_ref := this_ensemble.

(** What a caller may pass where the source expects coordinates, weights or
    an ensemble. *)
Inductive pyobj :=
  | PArray (l : loc)      (* an [np.ndarray] instance of the store *)
  | PAtoms (ag : atoms)   (* an object of the atomic classes *)
  | PEnsemble             (* the [Ensemble] instance itself *)
  | PObject.              (* any other object, without a [getCoordinates] attribute *)

Module Conformation.
(** [__slots__ = ['_ensemble', '_index', '_name']] *)
Record t := mk {
  _ensemble : option ensemble_ref;
  _index : option Z;
  _name : string
}.
End Conformation.

Module Ensemble.
(** The attributes that [Ensemble.__init__] creates. *)
Record t := mk {
  _name : string;
  _ensemble : list (option loc);          (* cached views, or None *)
  _confs : option loc;                    (* coordinate data *)
  _weights : option loc;
  _coords : option loc;                   (* reference *)
  _n_atoms : option nat;
  _transformations : list (option transformation)
}.

Definition set_ensemble (v : list (option loc)) (e : t) : t :=
  mk (_name e) v (_confs e) (_weights e) (_coords e) (_n_atoms e) (_transformations e).
Definition set_confs (v : option loc) (e : t) : t :=
  mk (_name e) (_ensemble e) v (_weights e) (_coords e) (_n_atoms e) (_transformations e).
Definition set_weights (v : option loc) (e : t) : t :=
  mk (_name e) (_ensemble e) (_confs e) v (_coords e) (_n_atoms e) (_transformations e).
Definition set_coords (v : option loc) (e : t) : t :=
  mk (_name e) (_ensemble e) (_confs e) (_weights e) v (_n_atoms e) (_transformations e).
Definition set_n_atoms (v : option nat) (e : t) : t :=
  mk (_name e) (_ensemble e) (_confs e) (_weights e) (_coords e) v (_transformations e).
Definition set_transformations (v : list (option transformation)) (e : t) : t :=
  mk (_name e) (_ensemble e) (_confs e) (_weights e) (_coords e) (_n_atoms e) v.

(** Every name that attribute lookup on an [Ensemble] instance resolves:
    the instance attributes above and what the class body defines. *)
Definition attributes : list string :=
  ["_name"; "_ensemble"; "_confs"; "_weights"; "_coords"; "_n_atoms";
   "_transformations";
   "__init__"; "__getitem__"; "__len__"; "__iter__"; "__repr__"; "__str__";
   "_getConformation"; "getName"; "setName"; "getNumOfAtoms"; "getNumOfConfs";
   "getCoordinates"; "setCoordinates"; "addCoordset"; "getCoordsets";
   "delCoordset"; "getNumOfCoordsets"; "iterCoordsets"; "getWeights";
   "getConformation"; "superimpose"; "_superimpose"; "transform"; "iterimpose";
   "getMSF"; "getDeviations"; "getRMSDs"].
End Ensemble.

(** The names bound in the module's namespace once [ensemble.py] is
    imported: by its import statements ([import os.path], [import time],
    [import numpy as np], [from prody import ProDyLogger as LOGGER],
    [from prody import measure]), its assignments and its class and function
    definitions. *)
Definition module_globals : list string :=
  ["__doc__"; "__author__"; "__copyright__"; "os"; "time"; "np"; "LOGGER";
   "measure"; "__all__"; "EnsembleError"; "Ensemble"; "Conformation";
   "getSumOfWeights"; "showSumOfWeights"].

Record world := World {
  arrays : gmap loc np.ndarray;
  views : gmap loc Conformation.t;
  self : Ensemble.t
}.

Definition set_arrays (h : gmap loc np.ndarray) (w : world) : world :=
  World h (views w) (self w).
Definition set_views (h : gmap loc Conformation.t) (w : world) : world :=
  World (arrays w) h (self w).
Definition set_self (e : Ensemble.t) (w : world) : world :=
  World (arrays w) (views w) e.

(** ** The monad of methods: store passing with exceptions *)

Definition M (A : Type) : Type := world → outcome A * world.

Global Instance M_ret : MRet M := λ A a w, (Ok a, w).
Global Instance M_bind : MBind M := λ A B k m w,
  match m w with
  | (Ok a, w') => k a w'
  | (Raise e, w') => (Raise e, w')
  end.

Definition raise {A} (e : exn) : M A := λ w, (Raise e, w).
Definition lift {A} (o : outcome A) : M A := λ w, (o, w).
Definition gets {A} (f : Ensemble.t → A) : M A := λ w, (Ok (f (self w)), w).
Definition modify (f : Ensemble.t → Ensemble.t) : M unit :=
  λ w, (Ok tt, set_self (f (self w)) w).

(** [try: m except AttributeError: handler] *)
Definition catch_AttributeError {A} (m handler : M A) : M A := λ w,
  match m w with
  | (Raise AttributeError, w') => handler w'
  | r => r
  end.

(** A new array object. *)
Definition alloc (a : np.ndarray) : M loc := λ w,
  let l := fresh (dom (arrays w)) in (Ok l, set_arrays (<[l := a]> (arrays w)) w).
Definition read (l : loc) : M np.ndarray := λ w,
  match arrays w !! l with
  | Some a => (Ok a, w)
  | None => (Raise DanglingReference, w)
  end.
(** In-place update of an array object. *)
Definition write (l : loc) (a : np.ndarray) : M unit := λ w,
  (Ok tt, set_arrays (<[l := a]> (arrays w)) w).

Definition alloc_view (c : Conformation.t) : M loc := λ w,
  let l := fresh (dom (views w)) in (Ok l, set_views (<[l := c]> (views w)) w).
Definition read_view (l : loc) : M Conformation.t := λ w,
  match views w !! l with
  | Some c => (Ok c, w)
  | None => (Raise DanglingReference, w)
  end.
Definition write_view (l : loc) (c : Conformation.t) : M unit := λ w,
  (Ok tt, set_views (<[l := c]> (views w)) w).

(** The outcome of a method and the world it leaves. *)
Definition result {A} (m : M A) (w : world) : outcome A := fst (m w).
Definition exec {A} (m : M A) (w : world) : world := snd (m w).

(** [for x in xs: body(x)] *)
Definition for_each {A} (xs : list A) (body : A → M unit) : M unit :=
  foldr (λ x k, body x;; k) (mret tt) xs.

(** Loading a global name: NameError unless the module binds it. *)
Definition lookup_global (name : string) : M unit :=
  if bool_decide (name ∈ module_globals) then mret tt else raise NameError.

(** The value of an attribute, as far as [transform] looks into it. *)
Inductive pyvalue :=
  | VNone
  | VArray (l : loc)
  | VOpaque.     (* a string, a list, a bound method, ... *)

(** [self.<name>] on the ensemble: AttributeError unless the instance or
    its class has the attribute. *)
Definition getattr_self (name : string) : M pyvalue :=
  if bool_decide (name ∈ Ensemble.attributes) then
    gets (λ e,
      if String.eqb name "_confs" then from_option VArray VNone (Ensemble._confs e)
      else if String.eqb name "_weights" then from_option VArray VNone (Ensemble._weights e)
      else if String.eqb name "_coords" then from_option VArray VNone (Ensemble._coords e)
      else VOpaque)
  else raise AttributeError.

(** [v.shape[0]] and [v[i]] on such a value. *)
Definition value_shape0 (v : pyvalue) : M nat :=
  match v with
  | VArray l =>
      a ← read l;
      match np.shape a !! 0 with
      | Some n => mret n
      | None => raise IndexError
      end
  | _ => raise AttributeError
  end.
Definition value_getitem (v : pyvalue) (i : nat) : M np.ndarray :=
  match v with
  | VArray l => a ← read l; lift (np.getitem a i)
  | _ => raise TypeError
  end.
Definition value_setitem (v : pyvalue) (i : nat) (x : np.ndarray) : M unit :=
  match v with
  | VArray l => a ← read l; a' ← lift (np.setitem a i x); write l a'
  | _ => raise TypeError
  end.

(** Index of a Python sequence of length [len]: negative indices count from
    the end. *)
Definition py_index (len : nat) (i : Z) : option nat :=
  if decide (0 ≤ i < Z.of_nat len)%Z then Some (Z.to_nat i)
  else if decide (- Z.of_nat len ≤ i < 0)%Z then Some (Z.to_nat (Z.of_nat len + i))
  else None.

(** [str(i)] *)
Definition str (i : Z) : string := pretty i.

(** ** [class Ensemble]: data operations *)

Import Ensemble.

(** [Ensemble.__init__(name)] in an empty store. *)
Definition init (name : string) : world :=
  World ∅ ∅ (Ensemble.mk name [] None None None None []).

(** [Ensemble.__len__] *)
Definition len : M nat := gets (λ e, length (_ensemble e)).

(** [Ensemble._getConformation] *)
Definition _getConformation (index : Z) : M loc :=
  ens ← gets _ensemble;
  match py_index (length ens) index with
  | None => raise IndexError
  | Some i =>
      match ens !! i with
      | Some (Some conf) => mret conf
      | _ =>
          conf ← alloc_view (Conformation.mk (Some this_ensemble) (Some index) (str index));
          modify (λ e, set_ensemble (<[i := Some conf]> (_ensemble e)) e);;
          mret conf
      end
  end.

(** [Ensemble.getConformation] *)
Definition getConformation (index : Z) : M loc := _getConformation index.

(** [Ensemble.getNumOfAtoms] *)
Definition getNumOfAtoms : M (option nat) := gets _n_atoms.

(** [Ensemble.getCoordinates]: [self._coords.copy()] *)
Definition getCoordinates : M loc :=
  ref ← gets _coords;
  match ref with
  | None => raise AttributeError
  | Some l => a ← read l; alloc a
  end.

(** [coords.getCoordinates()] on an object that is not an array: a new
    array for an atomic object, a copy of the reference for the ensemble
    itself, AttributeError for an object without the attribute. *)
Definition call_getCoordinates (coords : pyobj) : M loc :=
  match coords with
  | PAtoms ag => alloc (atoms_getCoordinates ag)
  | PEnsemble => getCoordinates
  | _ => raise AttributeError
  end.

(** The array that [coords.getCoordinates()] returns, when [coords] is not
    an array, has the accessor, and the call returns. *)
Definition accessor_array (coords : pyobj) (w : world) : option np.ndarray :=
  match coords with
  | PAtoms ag => Some (atoms_getCoordinates ag)
  | PEnsemble => _coords (self w) ≫= λ l, arrays w !! l
  | _ => None
  end.

(** [Ensemble.setCoordinates] *)
Definition setCoordinates (coords : pyobj) : M unit :=
  l ← match coords with
      | PArray l =>
          a ← read l;
          if negb (np.ndim a =? 2) then raise ValueError
          else if negb (bool_decide (np.shape a !! 1 = Some 3)) then raise ValueError
          else if negb (bool_decide (np.dt a = np.float64)) then
            lift (np.astype_float64 a);; mret l
          else mret l
      | _ =>
          catch_AttributeError (call_getCoordinates coords) (raise TypeError)
      end;
  a ← read l;
  n ← gets _n_atoms;
  match n, np.shape a !! 0 with
  | _, None => raise IndexError
  | Some n_atoms, Some k =>
      if negb (k =? n_atoms) then raise ValueError else mret tt
  | None, Some k => modify (set_n_atoms (Some k))
  end;;
  modify (set_coords (Some l)).

(** The checks that [addCoordset] applies to a [weights] argument, and its
    normalisation to a batch. *)
Definition addCoordset_weights (weights : option pyobj) (n_confs n_atoms : nat)
  : M (option loc) :=
  match weights with
  | None => mret None
  | Some (PArray lw) =>
      w ← read lw;
      (if negb (bool_decide (np.ndim w ∈ [1; 2; 3])) then raise ValueError
       else if bool_decide (np.ndim w ∈ [2; 3])
                 && negb (bool_decide (np.shape_from_end w 1 = Some 1))
       then raise ValueError
       else if negb (bool_decide (np.dt w = np.float64)) then
         lift (np.astype_float64 w);; mret tt
       else mret tt);;
      lw ← (if np.ndim w =? 1
            then w' ← lift (np.reshape w [1; n_atoms; 1]); alloc w'
            else mret lw);
      lw ← (if 1 <? n_confs
            then w ← read lw; alloc (np.tile w [n_confs; n_atoms; 1])
            else mret lw);
      mret (Some lw)
  | Some _ => raise TypeError
  end.

(** [Ensemble.addCoordset] *)
Definition addCoordset (coords : pyobj) (weights : option pyobj) : M unit :=
  '(ag, lc) ← match coords with
              | PArray l => mret (None, l)
              | _ =>
                  l ← catch_AttributeError (call_getCoordinates coords) (raise TypeError);
                  mret (Some coords, l)
              end;
  c ← read lc;
  (if negb (bool_decide (np.ndim c ∈ [2; 3])) then raise ValueError
   else if negb (bool_decide (np.dt c = np.float64)) then
     lift (np.astype_float64 c);; mret tt
   else mret tt);;
  n ← gets _n_atoms;
  n_atoms ← match n, np.shape_from_end c 2 with
            | _, None => raise IndexError
            | None, Some k => modify (set_n_atoms (Some k));; mret k
            | Some n_atoms, Some k =>
                if negb (k =? n_atoms) then raise ValueError else mret n_atoms
            end;
  lc ← (if np.ndim c =? 2
        then c' ← lift (np.reshape c [1; n_atoms; 3]); alloc c'
        else mret lc);
  c ← read lc;
  let n_confs := default 0 (np.shape c !! 0) in
  weights ← addCoordset_weights weights n_confs n_atoms;
  confs ← gets _confs;
  match confs with
  | None =>
      modify (set_confs (Some lc));;
      modify (set_weights weights)
  | Some lold =>
      old ← read lold;
      new ← lift (np.concatenate old c);
      lnew ← alloc new;
      modify (set_confs (Some lnew));;
      ws ← gets _weights;
      match weights with
      | Some lw =>
          match ws with
          | None => raise ValueError (* np.concatenate((None, weights), axis=0) *)
          | Some lws =>
              wold ← read lws;
              w ← read lw;
              wnew ← lift (np.concatenate wold w);
              l ← alloc wnew;
              modify (set_weights (Some l))
          end
      | None =>
          match ws with
          | Some lws =>
              wold ← read lws;
              pad ← lift (np.ones_positional n_confs n_atoms 1);
              wnew ← lift (np.concatenate wold pad);
              l ← alloc wnew;
              modify (set_weights (Some l))
          | None => mret tt
          end
      end
  end;;
  match ag with
  | None =>
      modify (λ e, set_ensemble (_ensemble e ++ replicate n_confs None) e);;
      modify (λ e, set_transformations (_transformations e ++ replicate n_confs None) e)
  | Some ag =>
      name ← match ag with
             | PAtoms ag =>
                 let name := atoms_getName ag in
                 mret (if 0 <? atoms_getNumOfCoordsets ag
                       then name +:+ " " +:+ str (Z.of_nat (atoms_getActiveCoordsetIndex ag))
                       else name)
             | _ =>
                 (* the ensemble itself: getName and getNumOfCoordsets are its
                    own, getActiveCoordsetIndex is not an attribute of it *)
                 name ← gets _name;
                 n ← len;
                 if 0 <? n then getattr_self "getActiveCoordsetIndex";; mret name
                 else mret name
             end;
      n ← len;
      conf ← alloc_view (Conformation.mk (Some this_ensemble) (Some (Z.of_nat n)) name);
      modify (λ e, set_ensemble (_ensemble e ++ [Some conf]) e);;
      modify (λ e, set_transformations (_transformations e ++ [None]) e)
  end.

(** [Ensemble.getCoordsets()] with the default [indices=None], the call
    that [getDeviations] makes. *)
Definition getCoordsets : M (option loc) :=
  confs ← gets _confs;
  match confs with
  | None => mret None
  | Some lc =>
      c ← read lc;
      ws ← gets _weights;
      c ← match ws with
          | None => mret c
          | Some lw =>
              wa ← read lw;
              if np.ndim wa =? 3 then
                foldl (λ (acc : M np.ndarray) i,
                         c ← acc;
                         w ← lift (np.getitem wa i);
                         let which := np.flatten_eq0 w in
                         ref ← gets _coords;
                         match ref with
                         | None => raise TypeError
                         | Some lr =>
                             r ← read lr;
                             rows ← lift (np.mask r which);
                             lift (np.setitem_mask c i which rows)
                         end)
                      (mret c) (seq 0 (default 0 (np.shape wa !! 0)))
              else mret c
          end;
      l ← alloc c;
      mret (Some l)
  end.

(** The argument of [delCoordset]: an integer or a list of integers. *)
Inductive pyindex :=
  | IInt (i : Z)
  | IList (l : list Z).

Definition index_list (index : pyindex) : list Z :=
  match index with
  | IInt i => [i]
  | IList l => l
  end.

(** [lst.pop(i)] *)
Definition pop {A} (l : list A) (i : Z) : option (A * list A) :=
  k ← py_index (length l) i;
  x ← l !! k;
  Some (x, delete k l).

(** The part of [delCoordset] that drops the frames from the coordinate and
    weight arrays; [which] is the boolean mask of the frames to keep. *)
Definition delCoordset_arrays (which : list bool) : M unit :=
  if bool_decide (Forall (λ b, b = false) which) then
    modify (set_confs None);;
    modify (set_weights None)
  else
    confs ← gets _confs;
    match confs with
    | None => raise TypeError
    | Some lc =>
        c ← read lc;
        c' ← lift (np.mask c which);
        l ← alloc c';
        modify (set_confs (Some l))
    end;;
    ws ← gets _weights;
    match ws with
    | None => mret tt
    | Some lw =>
        w ← read lw;
        w' ← lift (np.mask w which);
        l ← alloc w';
        modify (set_weights (Some l))
    end.

(** The body of the loop of [delCoordset] over the sorted indices. *)
Definition delCoordset_pop (i : Z) : M unit :=
  ens ← gets _ensemble;
  match pop ens i with
  | None => raise IndexError
  | Some (conf, ens') =>
      modify (set_ensemble ens');;
      match conf with
      | None => mret tt
      | Some v =>
          c ← read_view v;
          write_view v (Conformation.mk None None (Conformation._name c))
      end;;
      ts ← gets _transformations;
      match pop ts i with
      | None => raise IndexError
      | Some (_, ts') => modify (set_transformations ts')
      end
  end.

(** [Ensemble.delCoordset] *)
Definition delCoordset (index : pyindex) : M unit :=
  length ← len;
  (* which = np.ones(length, np.bool); which[index] = False *)
  which ← match mapM (py_index length) (index_list index) with
          | None => raise IndexError
          | Some ks => mret (foldr (λ k acc, <[k := false]> acc) (replicate length true) ks)
          end;
  delCoordset_arrays which;;
  (* index.sort(reverse=True); for i in index: ... *)
  for_each (merge_sort (flip Z.le) (index_list index)) delCoordset_pop.

(** [Ensemble.getWeights] *)
Definition getWeights : M (option loc) :=
  ws ← gets _weights;
  match ws with
  | None => mret None
  | Some lw => w ← read lw; l ← alloc w; mret (Some l)
  end.

(** [Ensemble.getDeviations] *)
Definition getDeviations : M (option loc) :=
  confs ← gets _confs;
  ref ← gets _coords;
  match confs, ref with
  | None, _ => mret None       (* LOGGER.warning('Conformations are not set.') *)
  | _, None => mret None       (* LOGGER.warning('Coordinates are not set.') *)
  | Some _, Some lr =>
      cs ← getCoordsets;
      match cs with
      | None => raise TypeError
      | Some lc =>
          c ← read lc;
          r ← read lr;
          d ← lift (np.map2 PrimFloat.sub c r);
          l ← alloc d;
          mret (Some l)
      end
  end.

(** [Ensemble.getRMSDs] *)
Definition getRMSDs : M (option loc) :=
  confs ← gets _confs;
  match confs with
  | None => mret None
  | Some _ =>
      weights ← gets _weights;
      '(wsum_axis_2, wsum_axis_1) ←
        match weights with
        | None => mret (np.scalar 1, np.scalar 1)
        | Some lw =>
            w ← read lw;
            wsum_axis_2 ← lift (np.sum 2 w);
            wsum_axis_1 ← lift (np.sum 1 wsum_axis_2);
            mret (wsum_axis_2, wsum_axis_1)
        end;
      dev ← getDeviations;
      match dev with
      | None => raise TypeError     (* np.power(None, 2) *)
      | Some ld =>
          d ← read ld;
          sq ← lift (np.sum 2 (np.power2 d));
          weighted ← lift (np.map2 PrimFloat.mul sq wsum_axis_2);
          total ← lift (np.sum 1 weighted);
          mean ← lift (np.map2 PrimFloat.div total wsum_axis_1);
          l ← alloc (np.sqrt mean);
          mret (Some l)
      end
  end.

(** ** [class Conformation] *)

(** [Conformation.getIndex] *)
Definition Conformation_getIndex (v : loc) : M (option Z) :=
  c ← read_view v; mret (Conformation._index c).

(** [Conformation.getEnsemble] *)
Definition Conformation_getEnsemble (v : loc) : M (option ensemble_ref) :=
  c ← read_view v; mret (Conformation._ensemble c).

(** [Conformation.getName] *)
Definition Conformation_getName (v : loc) : M string :=
  c ← read_view v; mret (Conformation._name c).

(** [a[index]] for the view's [_index]: an integer (negative ones count
    from the end) or [None], which NumPy reads as a new leading axis. *)
Definition getitem_index (a : np.ndarray) (index : option Z) : outcome np.ndarray :=
  match index with
  | None => Ok (np.mk (1 :: np.shape a) (np.data a) (np.dt a))
  | Some i =>
      match py_index (default 0 (np.shape a !! 0)) i with
      | Some k => np.getitem a k
      | None => Raise IndexError
      end
  end.

(** [Conformation.getCoordinates] *)
Definition Conformation_getCoordinates (v : loc) : M loc :=
  c ← read_view v;
  match Conformation._ensemble c with
  | None => raise AttributeError      (* None has no attribute _weights *)
  | Some this_ensemble =>
      ws ← gets _weights;
      confs ← gets _confs;
      match confs with
      | None => raise TypeError
      | Some lc =>
          cs ← read lc;
          coords ← lift (getitem_index cs (Conformation._index c));
          match ws with
          | None => alloc coords
          | Some lw =>
              w ← read lw;
              wi ← lift (getitem_index w (Conformation._index c));
              let which := np.flatten_eq0 wi in
              ref ← gets _coords;
              match ref with
              | None => raise TypeError
              | Some lr =>
                  r ← read lr;
                  rows ← lift (np.mask r which);
                  (* coords[which] = rows, on the one-frame batch *)
                  c1 ← lift (np.setitem_mask
                               (np.mk (1 :: np.shape coords) (np.data coords) (np.dt coords))
                               0 which rows);
                  alloc (np.mk (np.shape coords) (np.data c1) (np.dt coords))
              end
          end
      end
  end.

(** ** [getSumOfWeights] *)

(** The body of [getSumOfWeights] from the [isinstance] test on, once its
    second argument [prody.Ensemble] has been evaluated. *)
Definition getSumOfWeights_checked (ensemble : pyobj) : M (option loc) :=
  match ensemble with
  | PEnsemble =>
      weights ← getWeights;
      match weights with
      | None => mret None
      | Some lw =>
          w ← read lw;
          s ← lift (np.sum 0 w);
          l ← alloc s;
          mret (Some l)
      end
  | _ => raise TypeError
  end.

(** [getSumOfWeights]: the test [isinstance(ensemble, prody.Ensemble)]
    first loads the global name [prody]. *)
Definition getSumOfWeights (ensemble : pyobj) : M (option loc) :=
  lookup_global "prody";;
  getSumOfWeights_checked ensemble.

(** ** The alignment engine

    [prody.measure] is not part of this file: its functions are taken as
    parameters. *)

Section Alignment.

(** [measure.superimpose(mobile, target[, weights])]: the fitted
    coordinates and the transformation. *)
Variable superimpose :
  np.ndarray → option np.ndarray → option np.ndarray → outcome (np.ndarray * transformation).

(** [measure._getRMSD(reference, target[, weights])] *)
Variable _getRMSD :
  option np.ndarray → np.ndarray → option np.ndarray → outcome float.

(** [GF.transform(coords, rotation, translation, weights)], the callee that
    [Ensemble.transform] names. *)
Variable GF_transform :
  np.ndarray → np.ndarray → np.ndarray → np.ndarray → outcome np.ndarray.

(** [a] read through an optional reference. *)
Definition read_opt (l : option loc) : M (option np.ndarray) :=
  match l with
  | None => mret None
  | Some l => a ← read l; mret (Some a)
  end.

(** [Ensemble._superimpose] *)
Definition _superimpose : M unit :=
  weights ← gets _weights;
  coords ← gets _coords;
  confs ← gets _confs;
  n ← len;
  for_each (seq 0 n) (λ i,
    match confs with
    | None => raise TypeError
    | Some lc =>
        cs ← read lc;
        ci ← lift (np.getitem cs i);
        ref ← read_opt coords;
        wi ← match weights with
             | None => mret None
             | Some lw => w ← read lw; wi ← lift (np.getitem w i); mret (Some wi)
             end;
        '(conf, t) ← lift (superimpose ci ref wi);
        cs ← read lc;
        cs' ← lift (np.setitem cs i conf);
        write lc cs';;
        ts ← gets _transformations;
        if i <? length ts
        then modify (set_transformations (<[i := Some t]> ts))
        else raise IndexError
    end).

(** [len(self._confs)], [None] when [self._confs] is None. *)
Definition len_confs : M (option nat) :=
  confs ← gets _confs;
  match confs with
  | None => mret None
  | Some lc =>
      cs ← read lc;
      match np.shape cs !! 0 with
      | None => raise TypeError     (* len() of a 0-d array *)
      | Some k => mret (Some k)
      end
  end.

(** [Ensemble.superimpose] *)
Definition superimpose_ensemble : M unit :=
  k ← len_confs;
  match k with
  | None | Some 0 => raise AttributeError
  | Some _ => _superimpose
  end.

(** [Ensemble.transform] *)
Definition transform : M unit :=
  ts ← gets _transformations;
  if 0 <? length (filter (λ t, t = None) ts) then raise EnsembleError
  else
    conformations ← getattr_self "conformations";
    n ← value_shape0 conformations;
    for_each (seq 0 n) (λ i,
      lookup_global "GF";;
      conformations ← getattr_self "conformations";
      ci ← value_getitem conformations i;
      ts ← gets _transformations;
      '(rotation, translation) ← match ts !! i with
                                 | Some (Some t) => mret t
                                 | Some None => raise TypeError
                                 | None => raise IndexError
                                 end;
      weights ← getattr_self "weights";
      wi ← value_getitem weights i;
      new ← lift (GF_transform ci rotation translation wi);
      conformations ← getattr_self "conformations";
      value_setitem conformations i new).

(** The candidate reference of [iterimpose]:
    [self._confs.sum(0) / length] without weights,
    [(self._confs * weights).sum(0) / weightsum] with them. [weights],
    [weightsum] and [length] are the locals set before the loop. *)
Definition new_reference (weights : option loc) (weightsum : option np.ndarray)
    (length : nat) : M np.ndarray :=
  confs ← gets _confs;
  cs ← match confs with
       | None => raise AttributeError
       | Some lc => read lc
       end;
  match weights with
  | None =>
      s ← lift (np.sum 0 cs);
      lift (np.map2 PrimFloat.div s (np.scalar (np.of_nat length)))
  | Some lw =>
      w ← read lw;
      prod ← lift (np.map2 PrimFloat.mul cs w);
      s ← lift (np.sum 0 prod);
      match weightsum with
      | Some weightsum => lift (np.map2 PrimFloat.div s weightsum)
      | None => raise NameError     (* the local is bound whenever weights is not None *)
      end
  end.

(** [self._coords = newxyz] *)
Definition adopt (newxyz : np.ndarray) : M unit :=
  l ← alloc newxyz; modify (set_coords (Some l)).

(** One pass of the [while] loop of [iterimpose]: the new value of
    [rmsdif]. *)
Definition iterimpose_step (weights : option loc) (weightsum : option np.ndarray)
    (length : nat) : M float :=
  _superimpose;;
  newxyz ← new_reference weights weightsum length;
  coords ← gets _coords;
  old ← read_opt coords;
  rmsdif ← lift (_getRMSD old newxyz None);
  adopt newxyz;;
  mret rmsdif.

(** [while rmsdif > rmsd: ...]; [None] when [fuel] passes do not reach
    the exit. *)
Fixpoint iterimpose_loop (fuel : nat) (rmsd : float) (weights : option loc)
    (weightsum : option np.ndarray) (length : nat) (rmsdif : float) (w : world)
  : option (outcome unit * world) :=
  if (rmsd <? rmsdif)%float then
    match fuel with
    | 0 => None
    | S fuel' =>
        match iterimpose_step weights weightsum length w with
        | (Ok rmsdif', w') =>
            iterimpose_loop fuel' rmsd weights weightsum length rmsdif' w'
        | (Raise e, w') => Some (Raise e, w')
        end
    end
  else Some (Ok tt, w).

(** The statements of [iterimpose] before its loop: the guard and the
    locals [weights], [weightsum], [length]. *)
Definition iterimpose_enter : M (option loc * option np.ndarray * nat) :=
  k ← len_confs;
  match k with
  | None | Some 0 => raise AttributeError
  | Some _ =>
      weights ← gets _weights;
      weightsum ← match weights with
                  | None => mret None
                  | Some lw => w ← read lw; s ← lift (np.sum 0 w); mret (Some s)
                  end;
      length ← len;
      mret (weights, weightsum, length)
  end.

(** [Ensemble.iterimpose(rmsd)] *)
Definition iterimpose (fuel : nat) (rmsd : float) (w : world)
  : option (outcome unit * world) :=
  match iterimpose_enter w with
  | (Ok (weights, weightsum, length), w') =>
      iterimpose_loop fuel rmsd weights weightsum length 1%float w'
  | (Raise e, w') => Some (Raise e, w')
  end.

(** *** The loop, as the specification words it *)

(** One pass from [w] to [w'] with RMSD [rmsdif]: (a) every conformation
    is superimposed on the current reference, (b) the mean of the
    conformations is the candidate, (c) [rmsdif] is the RMSD between the
    old reference and the candidate, (d) the candidate becomes the
    reference. *)
Inductive pass (weights : option loc) (weightsum : option np.ndarray) (length : nat)
    (w : world) (rmsdif : float) (w' : world) : Prop :=
  | pass_intro (w1 : world) (newxyz : np.ndarray) (old : option np.ndarray) :
      _superimpose w = (Ok tt, w1) →
      new_reference weights weightsum length w1 = (Ok newxyz, w1) →
      read_opt (_coords (self w1)) w1 = (Ok old, w1) →
      _getRMSD old newxyz None = Ok rmsdif →
      w' = exec (adopt newxyz) w1 →
      pass weights weightsum length w rmsdif w'.

(** [n] passes in a row, each but the last with an RMSD above the
    threshold [rmsd]; [rmsdif] is the RMSD of the last one. *)
Inductive passes (rmsd : float) (weights : option loc) (weightsum : option np.ndarray)
    (length : nat) : nat → world → float → world → Prop :=
  | passes_last w rmsdif w' :
      pass weights weightsum length w rmsdif w' →
      passes rmsd weights weightsum length 1 w rmsdif w'
  | passes_more n w r w1 rmsdif w' :
      pass weights weightsum length w r w1 →
      (rmsd <? r)%float = true →
      passes rmsd weights weightsum length n w1 rmsdif w' →
      passes rmsd weights weightsum length (S n) w rmsdif w'.

End Alignment.

(** ** Observing a run *)

(** A world in which the caller holds the array [a] at location [l]. *)
Definition caller_array (l : loc) (a : np.ndarray) (w : world) : world :=
  exec (write l a) w.

(** The contents of the array that a method returned, if it returned one. *)
Definition returned_array (r : outcome (option loc) * world) : option np.ndarray :=
  match r with
  | (Ok (Some l), w) => arrays w !! l
  | _ => None
  end.

(** The contents of the array object that a method returned. *)
Definition array_of (r : outcome loc * world) : option np.ndarray :=
  match r with
  | (Ok l, w) => arrays w !! l
  | _ => None
  end.

Definition shape_at (l : option loc) (w : world) : option (list nat) :=
  l ≫= λ l, np.shape <$> arrays w !! l.

(** ** What the specification asks of [getRMSDs] without weights

    For one conformation [conf] and the reference [ref], both N x 3: the
    squared deviations summed over axes and atoms, divided by the atom
    count N, square-rooted. *)
Definition rmsd_unit_weights (conf ref : np.ndarray) : float :=
  let n := default 0 (np.shape ref !! 0) in
  PrimFloat.sqrt
    (np.sum_list (zip_with (λ x y, (x - y) * (x - y))%float (np.data conf) (np.data ref))
     / np.of_nat n)%float.

(** ** Scenarios *)

Module Scenario.

Definition f64 (s : list nat) (d : list float) : np.ndarray := np.mk s d np.float64.

(** Four atoms at the origin as reference; one conformation with every
    atom displaced by (1, 0, 0); no weights. *)
Definition ref4 : np.ndarray := f64 [4; 3] (replicate 12 0%float).
Definition conf4 : np.ndarray := f64 [4; 3] [1; 0; 0; 1; 0; 0; 1; 0; 0; 1; 0; 0]%float.
Definition four_atoms : world :=
  exec (setCoordinates (PArray 1%positive);; addCoordset (PArray 2%positive) None)
    (caller_array 2%positive conf4 (caller_array 1%positive ref4 (init "four"))).

(** A first call with a batch of two frames of two atoms and per-atom
    weights [1, 0.5]. *)
Definition batch2 : np.ndarray := f64 [2; 2; 3] [0; 0; 0; 1; 1; 1; 2; 2; 2; 3; 3; 3]%float.
Definition weights2 : np.ndarray := f64 [2] [1; 0.5]%float.
Definition batch_with_weights : world :=
  exec (addCoordset (PArray 1%positive) (Some (PArray 2%positive)))
    (caller_array 2%positive weights2 (caller_array 1%positive batch2 (init "batch"))).

(** An ensemble of two atoms holding one weighted conformation; the caller
    also holds the weights it passed (location 2), a second frame
    (location 3), weights for three atoms (location 4) and a batch of one
    more frame (location 5). *)
Definition frame2a : np.ndarray := f64 [2; 3] [0; 0; 0; 1; 1; 1]%float.
Definition frame2b : np.ndarray := f64 [2; 3] [2; 2; 2; 3; 3; 3]%float.
Definition weights3 : np.ndarray := f64 [1; 3; 1] [1; 1; 1]%float.
Definition batch1 : np.ndarray := f64 [1; 2; 3] [4; 4; 4; 5; 5; 5]%float.
Definition weighted : world :=
  exec (addCoordset (PArray 1%positive) (Some (PArray 2%positive)))
    (caller_array 5%positive batch1
      (caller_array 4%positive weights3
        (caller_array 3%positive frame2b
          (caller_array 2%positive weights2
            (caller_array 1%positive frame2a (init "weighted")))))).

(** Five conformations of one atom, every view materialised. *)
Definition batch5 : np.ndarray :=
  f64 [5; 1; 3] [0; 0; 0; 1; 1; 1; 2; 2; 2; 3; 3; 3; 4; 4; 4]%float.
Definition five_views : M (list loc) :=
  addCoordset (PArray 1%positive) None;;
  mapM getConformation [0; 1; 2; 3; 4]%Z.
Definition five : world :=
  exec five_views (caller_array 1%positive batch5 (init "five")).

(** One atom; the reference at the origin, set from the caller's array at
    location 1. *)
Definition origin : np.ndarray := f64 [1; 3] [0; 0; 0]%float.
Definition moved : np.ndarray := f64 [1; 3] [9; 9; 9]%float.
Definition with_reference : world :=
  exec (setCoordinates (PArray 1%positive)) (caller_array 1%positive origin (init "ref")).

(** An atom group of three atoms, handed to an ensemble of two atoms. *)
Definition three_atoms : atoms :=
  Atoms (f64 [3; 3] (replicate 9 0%float)) "ag" 1 0.

(** One conformation (1, 1, 1) of one atom against the reference at the
    origin; the fit leaves the coordinates where they are, and the RMSD is
    the plain one. *)
Definition one_conf : world :=
  exec (setCoordinates (PArray 1%positive);; addCoordset (PArray 2%positive) None)
    (caller_array 2%positive (f64 [1; 3] [1; 1; 1]%float)
      (caller_array 1%positive origin (init "one"))).
Definition identity_transformation : transformation :=
  (f64 [3; 3] [1; 0; 0; 0; 1; 0; 0; 0; 1]%float, f64 [3] [0; 0; 0]%float).
Definition fit_nothing (mobile : np.ndarray) (target weights : option np.ndarray)
  : outcome (np.ndarray * transformation) := Ok (mobile, identity_transformation).
Definition plain_rmsd (a : option np.ndarray) (b : np.ndarray) (weights : option np.ndarray)
  : outcome float :=
  match a with
  | Some a => Ok (rmsd_unit_weights b a)
  | None => Raise TypeError
  end.
Definition no_transform (c r t w : np.ndarray) : outcome np.ndarray := Ok c.

(** The same ensemble after one call of [superimpose]: every
    transformation slot is filled. *)
Definition superimposed : world := exec (superimpose_ensemble fit_nothing) one_conf.

End Scenario.

(** ** Tactics *)

(** A multi-index is within a shape. *)
Ltac solve_valid :=
  unfold np.valid_index; repeat (constructor; try (assumption || lia)).

(** Unfold the monad down to functions on worlds. *)
Ltac unfold_M :=
  unfold mbind, M_bind, mret, M_ret, gets, modify, read, lift, raise in *.

(** * Properties *)

Import Scenario.

(** ** The store *)

(** A new array object is none of the existing ones. *)
Lemma fresh_loc_not_in (h : gmap loc np.ndarray) (l : loc) (a : np.ndarray) :
  h !! l = Some a → fresh (dom h) ≠ l.
Proof.
  intros Hl Heq. apply (is_fresh (dom h)). rewrite Heq.
  apply elem_of_dom. eauto.
Qed.

(** Running a bind whose first part is known. *)
Lemma bind_run {A B} (m : M A) (k : A → M B) (w w' : world) (a : A) :
  m w = (Ok a, w') → (m ≫= k) w = k a w'.
Proof. intros H. unfold mbind, M_bind. by rewrite H. Qed.

Lemma gets_run {A} (f : Ensemble.t → A) (w : world) : gets f w = (Ok (f (self w)), w).
Proof. reflexivity. Qed.

Lemma read_run (l : loc) (a : np.ndarray) (w : world) :
  arrays w !! l = Some a → read l w = (Ok a, w).
Proof. intros H. unfold read. by rewrite H. Qed.

Lemma alloc_run (a : np.ndarray) (w : world) :
  alloc a w = (Ok (fresh (dom (arrays w))),
               set_arrays (<[fresh (dom (arrays w)) := a]> (arrays w)) w).
Proof. reflexivity. Qed.

(** Allocation keeps the existing arrays. *)
Lemma alloc_keeps (w : world) (x a : np.ndarray) (l : loc) :
  arrays w !! l = Some a →
  arrays (set_arrays (<[fresh (dom (arrays w)) := x]> (arrays w)) w) !! l = Some a.
Proof.
  intros H. simpl. rewrite lookup_insert_ne; [exact H | by eapply fresh_loc_not_in].
Qed.

(** ** Indexing in the NumPy fragment *)

Lemma bind_blocks_length (L : list (list nat)) (a n : nat) :
  length (i ← seq a n; cons i <$> L) = n * length L.
Proof.
  revert a. induction n as [|n IH]; intros a; simpl; [reflexivity|].
  rewrite length_app, length_fmap, IH. reflexivity.
Qed.

Lemma bind_blocks_lookup (L : list (list nat)) (x : list nat) (a n i j : nat) :
  i < n → L !! j = Some x →
  (k ← seq a n; cons k <$> L) !! (i * length L + j) = Some ((a + i) :: x).
Proof.
  revert a i. induction n as [|n IH]; intros a i Hi Hj; [lia|].
  simpl. destruct i as [|i].
  - simpl. rewrite lookup_app_l by (rewrite length_fmap; by eapply lookup_lt_Some).
    rewrite list_lookup_fmap, Hj. simpl. do 2 f_equal. lia.
  - rewrite lookup_app_r by (rewrite length_fmap; simpl; lia).
    rewrite length_fmap.
    replace (S i * length L + j - length L) with (i * length L + j) by (simpl; lia).
    rewrite IH by (assumption || lia). do 2 f_equal. lia.
Qed.

Lemma length_indices (s : list nat) : length (np.indices s) = np.size s.
Proof.
  induction s as [|n s IH]; simpl; [reflexivity|].
  rewrite bind_blocks_length, IH. reflexivity.
Qed.

(** The multi-indices are listed in row-major order. *)
Lemma indices_lookup (s idx : list nat) :
  np.valid_index idx s → np.indices s !! np.offset s idx = Some idx.
Proof.
  intros H. induction H as [|i n idx s Hi _ IH]; simpl; [reflexivity|].
  replace (if n =? 1 then 0 else i) with i
    by (destruct (Nat.eqb_spec n 1); [lia | reflexivity]).
  rewrite <- length_indices.
  rewrite (bind_blocks_lookup _ idx 0 n i _ Hi IH). reflexivity.
Qed.

(** Reading an array that was tabulated over the indices of its shape. *)
Lemma bget_tabulate (s idx : list nat) (f : list nat → float) (d : np.dtype) :
  np.valid_index idx s → np.bget (np.mk s (f <$> np.indices s) d) idx = f idx.
Proof.
  intros H. unfold np.bget, np.ndim. simpl.
  rewrite (Forall2_length _ _ _ H), Nat.sub_diag, drop_0.
  rewrite nth_lookup, list_lookup_fmap, (indices_lookup _ _ H). reflexivity.
Qed.

(** What [np.map2] and [np.sum] compute, element by element. *)
Lemma map2_spec (f : float → float → float) (a b r : np.ndarray) :
  np.map2 f a b = Ok r →
  np.broadcast_shapes (np.shape a) (np.shape b) = Some (np.shape r)
  ∧ ∀ idx, np.valid_index idx (np.shape r) →
      np.bget r idx = f (np.bget a idx) (np.bget b idx).
Proof.
  unfold np.map2. destruct (np.broadcast_shapes _ _) as [s|]; [|discriminate].
  intros [= <-]. simpl. split; [reflexivity|].
  intros idx H. by rewrite bget_tabulate.
Qed.

Lemma sum_spec (k : nat) (a r : np.ndarray) :
  np.sum k a = Ok r →
  ∃ n, np.shape a !! k = Some n
       ∧ np.shape r = delete k (np.shape a)
       ∧ ∀ idx, np.valid_index idx (np.shape r) →
           np.bget r idx
           = np.sum_list ((λ j, np.bget a (take k idx ++ j :: drop k idx)) <$> seq 0 n).
Proof.
  unfold np.sum. destruct (np.shape a !! k) as [n|]; [|discriminate].
  intros [= <-]. simpl. exists n. split; [reflexivity|]. split; [reflexivity|].
  intros idx H. by rewrite bget_tabulate.
Qed.

Lemma bdim_refl (n : nat) : np.bdim n n = Some n.
Proof. unfold np.bdim. by rewrite Nat.eqb_refl. Qed.

(** An axis of length 1 ignores its index. *)
Lemma bget_last_axis_1 (a : np.ndarray) (s idx : list nat) (k : nat) :
  np.shape a = s ++ [1] → length idx = length s →
  np.bget a (idx ++ [k]) = np.bget a (idx ++ [0]).
Proof.
  intros Hs Hl. unfold np.bget, np.ndim. rewrite Hs, !length_app, Hl. simpl.
  replace (length s + 1 - (length s + 1)) with 0 by lia. rewrite !drop_0.
  f_equal. clear Hs. revert idx Hl.
  induction s as [|n s IH]; intros [|i idx] Hl; simpl in *; try discriminate; [reflexivity|].
  f_equal. apply IH. lia.
Qed.

Lemma map2_ok (f : float → float → float) (a b : np.ndarray) (s : list nat) :
  np.broadcast_shapes (np.shape a) (np.shape b) = Some s →
  ∃ r, np.map2 f a b = Ok r
       ∧ np.shape r = s
       ∧ ∀ idx, np.valid_index idx s → np.bget r idx = f (np.bget a idx) (np.bget b idx).
Proof.
  intros H. unfold np.map2. rewrite H. eexists. split; [reflexivity|].
  split; [reflexivity|]. intros idx Hv. by rewrite bget_tabulate.
Qed.

Lemma sum_ok (k n : nat) (a : np.ndarray) :
  np.shape a !! k = Some n →
  ∃ r, np.sum k a = Ok r
       ∧ np.shape r = delete k (np.shape a)
       ∧ ∀ idx, np.valid_index idx (delete k (np.shape a)) →
           np.bget r idx
           = np.sum_list ((λ j, np.bget a (take k idx ++ j :: drop k idx)) <$> seq 0 n).
Proof.
  intros H. unfold np.sum. rewrite H. eexists. split; [reflexivity|].
  split; [reflexivity|]. intros idx Hv. by rewrite bget_tabulate.
Qed.

(** A scalar operand reads the same at every index. *)
Lemma bget_scalar (x : float) (idx : list nat) : np.bget (np.scalar x) idx = x.
Proof.
  reflexivity.
Qed.

(** Broadcasting with a scalar keeps the shape. *)
Lemma broadcast_scalar (s : list nat) : np.broadcast_shapes s [] = Some s.
Proof.
  unfold np.broadcast_shapes. simpl.
  destruct (reverse s) eqn:E; simpl; f_equal;
    rewrite <- (reverse_involutive s), E; reflexivity.
Qed.

Lemma bget_map1 (f : float → float) (a : np.ndarray) (idx : list nat) :
  f 0%float = 0%float → np.bget (np.map1 f a) idx = f (np.bget a idx).
Proof.
  intros H0. unfold np.bget, np.map1, np.ndim. simpl.
  rewrite !nth_lookup, list_lookup_fmap.
  destruct (np.data a !! _); simpl; [reflexivity | by rewrite H0].
Qed.

(** ** Sanity checks of the NumPy fragment *)

Example tile_example :
  np.tile (f64 [1; 2; 1] [1; 0.5]%float) [2; 1; 1]
  = f64 [2; 2; 1] [1; 0.5; 1; 0.5]%float.
Proof. reflexivity. Qed.

Example sum_axis0_example :
  np.sum 0 (f64 [2; 2; 1] [1; 0.5; 1; 0.5]%float) = Ok (f64 [2; 1] [2; 1]%float).
Proof. reflexivity. Qed.

Example broadcast_example :
  np.map2 PrimFloat.sub batch2 frame2a
  = Ok (f64 [2; 2; 3] [0; 0; 0; 0; 0; 0; 2; 2; 2; 2; 2; 2]%float).
Proof. reflexivity. Qed.

Example concatenate_mismatch :
  np.concatenate (f64 [1; 2; 1] [1; 1]%float) weights3 = Raise ValueError.
Proof. reflexivity. Qed.

(** ** setCoordinates and getCoordinates *)

Lemma getCoordinates_copy (w : world) (l : loc) (a : np.ndarray) :
  _coords (self w) = Some l →
  arrays w !! l = Some a →
  getCoordinates w
  = (Ok (fresh (dom (arrays w))), set_arrays (<[fresh (dom (arrays w)) := a]> (arrays w)) w).
Proof.
  intros Hc Hl. unfold getCoordinates, mbind, M_bind, gets, read, alloc.
  rewrite Hc. simpl. rewrite Hl. reflexivity.
Qed.

(** C10 (amended). Through an object with a [getCoordinates] accessor (an
    atomic object, or the ensemble itself), [setCoordinates] applies no
    rank, width or dtype check, but the atom-count check still applies: the
    call raises ValueError exactly when the atom count is already fixed and
    differs from the first axis length of the accessor's array (IndexError
    if that array has no axis), and otherwise stores the accessor's array as
    the reference. Where the accessor is missing or fails the error is not a
    ValueError. *)
Theorem C10_adapter_path_checks_only_the_atom_count (coords : pyobj) (w : world) :
  let l := fresh (dom (arrays w)) in
  let w' := exec (setCoordinates coords) w in
  match coords, accessor_array coords w with
  | PArray _, _ => True
  | _, Some a =>
      result (setCoordinates coords) w
      = match np.shape a !! 0 with
        | None => Raise IndexError
        | Some k =>
            if bool_decide (_n_atoms (self w) = None ∨ _n_atoms (self w) = Some k)
            then Ok tt else Raise ValueError
        end
      ∧ arrays w' !! l = Some a
      ∧ match result (setCoordinates coords) w with
        | Ok _ => _coords (self w') = Some l ∧ _n_atoms (self w') = np.shape a !! 0
        | Raise _ => self w' = self w
        end
  | _, None =>
      ∃ e, result (setCoordinates coords) w = Raise e ∧ e ≠ ValueError ∧ self w' = self w
  end.
Proof.
  intros l w'. subst w'.
  assert (Hgen : ∀ a,
    (catch_AttributeError (call_getCoordinates coords) (raise TypeError)) w
    = (Ok l, set_arrays (<[l := a]> (arrays w)) w) →
    result (setCoordinates coords) w
    = match np.shape a !! 0 with
      | None => Raise IndexError
      | Some k =>
          if bool_decide (_n_atoms (self w) = None ∨ _n_atoms (self w) = Some k)
          then Ok tt else Raise ValueError
      end
    ∧ arrays (exec (setCoordinates coords) w) !! l = Some a
    ∧ match result (setCoordinates coords) w with
      | Ok _ => _coords (self (exec (setCoordinates coords) w)) = Some l
                ∧ _n_atoms (self (exec (setCoordinates coords) w)) = np.shape a !! 0
      | Raise _ => self (exec (setCoordinates coords) w) = self w
      end).
  { intros a Hrun. unfold result, exec.
    assert (Hset : setCoordinates coords w
                   = ((a ← read l;
                       n ← gets _n_atoms;
                       match n, np.shape a !! 0 with
                       | _, None => raise IndexError
                       | Some n_atoms, Some k =>
                           if negb (k =? n_atoms) then raise ValueError else mret tt
                       | None, Some k => modify (set_n_atoms (Some k))
                       end;;
                       modify (set_coords (Some l)))
                        (set_arrays (<[l := a]> (arrays w)) w))).
    { unfold setCoordinates. destruct coords; try (by rewrite (bind_run _ _ _ _ _ Hrun)).
      unfold catch_AttributeError, call_getCoordinates, raise in Hrun. discriminate. }
    rewrite Hset. unfold mbind, M_bind, read, gets, modify, raise, mret, M_ret. simpl.
    rewrite lookup_insert_eq.
    destruct (np.shape a !! 0) as [k|] eqn:Hk; simpl;
      destruct (_n_atoms (self w)) as [n|] eqn:Hn; simpl; rewrite ?lookup_insert_eq.
    - destruct (Nat.eqb_spec k n) as [->|Hne]; simpl; rewrite ?lookup_insert_eq.
      + case_bool_decide as Hd; [auto | exfalso; apply Hd; by right].
      + case_bool_decide as Hd; [destruct Hd; congruence | auto].
    - auto.
    - auto.
    - auto. }
  destruct coords as [la|ag| |]; simpl.
  - exact I.
  - apply Hgen. reflexivity.
  - destruct (_coords (self w)) as [l0|] eqn:Hc; simpl.
    + destruct (arrays w !! l0) as [a|] eqn:Hl0; simpl.
      * apply Hgen. unfold catch_AttributeError, call_getCoordinates.
        by rewrite (getCoordinates_copy w l0 a Hc Hl0).
      * exists DanglingReference.
        unfold result, exec, setCoordinates, catch_AttributeError, call_getCoordinates,
          getCoordinates, mbind, M_bind, gets, read.
        rewrite Hc. simpl. rewrite Hl0. simpl. by repeat split.
    + exists TypeError.
      unfold result, exec, setCoordinates, catch_AttributeError, call_getCoordinates,
        getCoordinates, mbind, M_bind, gets, read, raise.
      rewrite Hc. simpl. by repeat split.
  - exists TypeError. by repeat split.
Qed.

(** C10, the specification as written fails: on an ensemble of two atoms, an atom
    group of three atoms makes [setCoordinates] raise ValueError. *)
Lemma C10_adapter_atom_count_mismatch :
  _n_atoms (self weighted) = Some 2
  ∧ result (setCoordinates (PAtoms three_atoms)) weighted = Raise ValueError.
Proof. split; reflexivity. Qed.

(** C6 (amended). For a valid N x 3 float array, [setCoordinates] stores
    the caller's array object itself, not a copy: a later in-place change of
    that array by the caller is what [getCoordinates] then returns.
    [getCoordinates] does return a copy: a new array object, equal to the
    stored reference, whose mutation leaves the stored reference as it was. *)
Theorem C6_reference_is_shared_in_and_copied_out
    (w : world) (l : loc) (a : np.ndarray) (n : nat) :
  arrays w !! l = Some a →
  np.shape a = [n; 3] →
  np.dt a = np.float64 →
  (_n_atoms (self w) = None ∨ _n_atoms (self w) = Some n) →
  let w1 := exec (setCoordinates (PArray l)) w in
  result (setCoordinates (PArray l)) w = Ok tt
  ∧ arrays w1 = arrays w
  ∧ _coords (self w1) = Some l
  ∧ (∀ a', array_of (getCoordinates (caller_array l a' w1)) = Some a')
  ∧ ∃ l2, result getCoordinates w1 = Ok l2
      ∧ l2 ≠ l
      ∧ (l2 ∉ dom (arrays w1))
      ∧ array_of (getCoordinates w1) = Some a
      ∧ ∀ a'', let w3 := caller_array l2 a'' (exec getCoordinates w1) in
               self w3 = self w1
               ∧ arrays w3 !! l = Some a
               ∧ array_of (getCoordinates w3) = Some a.
Proof.
  intros Hl Hshape Hdt Hn w1.
  assert (Hset : ∃ e, setCoordinates (PArray l) w = (Ok tt, World (arrays w) (views w) e)
                      ∧ _coords e = Some l).
  { unfold setCoordinates, mbind, M_bind, read, gets, modify, np.ndim. simpl.
    rewrite Hl. simpl. rewrite Hshape, Hdt. simpl. rewrite Hl. simpl.
    rewrite Hshape. simpl.
    destruct Hn as [-> | ->]; simpl; [|rewrite Nat.eqb_refl; simpl];
      eexists; split; reflexivity. }
  destruct Hset as (e & Hset & He).
  subst w1. unfold result, exec. rewrite Hset. simpl.
  split; [reflexivity|]. split; [reflexivity|]. split; [exact He|].
  set (w1 := World (arrays w) (views w) e).
  split.
  - intros a'. unfold caller_array, exec, write. simpl.
    erewrite getCoordinates_copy; [|exact He|apply lookup_insert_eq].
    apply lookup_insert_eq.
  - rewrite (getCoordinates_copy w1 l a He Hl). simpl.
    exists (fresh (dom (arrays w))).
    split; [reflexivity|].
    split; [by eapply fresh_loc_not_in|].
    split; [apply is_fresh|].
    split; [apply lookup_insert_eq|].
    intros a''. unfold caller_array, exec, write. simpl.
    split; [reflexivity|].
    assert (Hl' : <[fresh (dom (arrays w)) := a'']>
                    (<[fresh (dom (arrays w)) := a]> (arrays w)) !! l = Some a).
    { rewrite insert_insert_eq.
      rewrite lookup_insert_ne by (by eapply fresh_loc_not_in). exact Hl. }
    split; [exact Hl'|].
    erewrite getCoordinates_copy; [|exact He|exact Hl'].
    apply lookup_insert_eq.
Qed.

Lemma moved_is_not_origin : moved ≠ origin.
Proof.
  intros H.
  apply (f_equal (λ a, match np.data a with x :: _ => PrimFloat.eqb x 0 | [] => true end)) in H.
  vm_compute in H. discriminate.
Qed.

(** C6, the theorem at work: the reference set from the caller's array at
    location 1 is that very array, and a copy comes back. *)
Lemma C6_reference_shared_witness :
  let w := caller_array 1%positive origin (init "ref") in
  arrays w !! 1%positive = Some origin
  ∧ result (setCoordinates (PArray 1%positive)) w = Ok tt
  ∧ _coords (self with_reference) = Some 1%positive
  ∧ array_of (getCoordinates (caller_array 1%positive moved with_reference)) = Some moved
  ∧ array_of (getCoordinates with_reference) = Some origin.
Proof.
  intros w.
  destruct (C6_reference_is_shared_in_and_copied_out w 1%positive origin 1
              eq_refl eq_refl eq_refl (or_introl eq_refl))
    as (Hok & _ & Hc & Hseen & l2 & _ & _ & _ & Hcopy & _).
  split; [reflexivity|]. split; [exact Hok|]. split; [exact Hc|].
  split; [exact (Hseen moved) | exact Hcopy].
Defined.

(** C6, the specification as written fails: no private copy is stored. After the
    caller overwrites its own array, [getCoordinates] returns the new
    contents, not the coordinates that were set. *)
Lemma C6_callers_mutation_reaches_the_reference :
  with_reference = exec (setCoordinates (PArray 1%positive))
                     (caller_array 1%positive origin (init "ref"))
  ∧ array_of (getCoordinates with_reference) = Some origin
  ∧ array_of (getCoordinates (caller_array 1%positive moved with_reference)) = Some moved
  ∧ moved ≠ origin.
Proof.
  split; [reflexivity|]. split; [reflexivity|]. split; [reflexivity|].
  exact moved_is_not_origin.
Qed.

(** ** addCoordset *)

(** C3 (code defect). On an ensemble without conformations, a batch of
    K > 1 frames of N atoms with N per-atom weights is accepted, and
    [np.tile(weights, (n_confs, n_atoms, 1))], applied to the weights
    reshaped to (1, N, 1), repeats them N times along the atom axis as well:
    the stored weights have shape (K, N * N, 1), not (K, N, 1). *)
Theorem C3_batch_weights_get_shape_K_NN_1
    (w : world) (lc lw : loc) (c wa : np.ndarray) (K N : nat) :
  _confs (self w) = None →
  (_n_atoms (self w) = None ∨ _n_atoms (self w) = Some N) →
  arrays w !! lc = Some c → np.shape c = [K; N; 3] → np.dt c = np.float64 →
  arrays w !! lw = Some wa → np.shape wa = [N] → length (np.data wa) = N →
  np.dt wa = np.float64 →
  1 < K →
  let w' := exec (addCoordset (PArray lc) (Some (PArray lw))) w in
  result (addCoordset (PArray lc) (Some (PArray lw))) w = Ok tt
  ∧ shape_at (_confs (self w')) w' = Some [K; N; 3]
  ∧ shape_at (_weights (self w')) w' = Some [K; N * N; 1].
Proof.
  intros Hcf Hn Hlc Hsc Hdc Hlw Hsw Hlen Hdw HK w'. subst w'.
  unfold result, exec, addCoordset, addCoordset_weights.
  unfold mbind, M_bind, mret, M_ret, gets, modify, read, lift, raise, alloc, len.
  destruct w as [h vs [nm ens cf ws rf na ts]]. simpl in *. subst cf.
  rewrite Hlc. simpl. unfold np.ndim, np.shape_from_end. rewrite Hsc, Hdc. simpl.
  assert (HK' : (1 <? K) = true) by (apply Nat.ltb_lt; lia).
  destruct Hn as [-> | ->]; simpl; rewrite ?Nat.eqb_refl; simpl;
    rewrite Hlc; simpl; rewrite Hlw; simpl; rewrite Hsw, Hdw; simpl;
    unfold np.reshape; simpl; replace (N * 1 + 0) with N by lia;
    rewrite Hlen, Nat.eqb_refl; simpl;
    unfold set_self, set_arrays, set_n_atoms, set_confs, set_weights; simpl;
    rewrite ?Hsc; simpl; rewrite ?HK'; simpl; rewrite ?lookup_insert_eq; simpl.
  all: split; [reflexivity|].
  all: assert (H1 : <[fresh (dom h) := np.mk [1; N; 1] (np.data wa) (np.dt wa)]> h !! lc
                    = Some c)
         by (rewrite lookup_insert_ne; [exact Hlc | by eapply fresh_loc_not_in]).
  all: split;
         [ rewrite lookup_insert_ne; [by rewrite H1; simpl; rewrite Hsc
                                     | by eapply fresh_loc_not_in]
         | rewrite lookup_insert_eq; simpl; do 3 f_equal; lia ].
Qed.

(** C3, at an input: a batch of two frames of two atoms with the weights
    [1, 0.5] gives weights of shape (2, 4, 1). *)
Lemma C3_batch_weights_witness :
  let w := caller_array 2%positive weights2 (caller_array 1%positive batch2 (init "batch")) in
  _confs (self w) = None
  ∧ arrays w !! 1%positive = Some batch2
  ∧ arrays w !! 2%positive = Some weights2
  ∧ result (addCoordset (PArray 1%positive) (Some (PArray 2%positive))) w = Ok tt
  ∧ shape_at (_confs (self batch_with_weights)) batch_with_weights = Some [2; 2; 3]
  ∧ shape_at (_weights (self batch_with_weights)) batch_with_weights = Some [2; 4; 1].
Proof.
  intros w.
  split; [reflexivity|]. split; [reflexivity|]. split; [reflexivity|].
  apply (C3_batch_weights_get_shape_K_NN_1 w 1%positive 2%positive batch2 weights2 2 2);
    try reflexivity; [by left | lia].
Defined.


(** C4 (code defect). [addCoordset] replaces [self._confs] by the
    concatenation before it extends the weights, and extending the weights
    can fail. On an ensemble that holds M conformations with weights, a
    batch of K frames passed without weights passes every check, the
    coordinate stack grows to M + K frames, and then
    [np.ones(n_confs, n_atoms, 1)] raises TypeError: the call fails with the
    append half applied, the weights, view slots and transformation slots
    being as before. *)
Theorem C4_failed_addCoordset_keeps_the_new_frames
    (w : world) (lold lws lc : loc) (old wold c : np.ndarray) (M K N : nat) :
  _confs (self w) = Some lold → arrays w !! lold = Some old → np.shape old = [M; N; 3] →
  _weights (self w) = Some lws → arrays w !! lws = Some wold →
  _n_atoms (self w) = Some N →
  arrays w !! lc = Some c → np.shape c = [K; N; 3] → np.dt c = np.float64 →
  let w' := exec (addCoordset (PArray lc) None) w in
  result (addCoordset (PArray lc) None) w = Raise TypeError
  ∧ shape_at (_confs (self w)) w = Some [M; N; 3]
  ∧ shape_at (_confs (self w')) w' = Some [M + K; N; 3]
  ∧ _weights (self w') = _weights (self w)
  ∧ _ensemble (self w') = _ensemble (self w)
  ∧ _transformations (self w') = _transformations (self w).
Proof.
  intros Hcf Hlold Hso Hws Hlws Hna Hlc Hsc Hdc w'. subst w'.
  unfold result, exec, shape_at, addCoordset, addCoordset_weights.
  unfold mbind, M_bind, mret, M_ret, gets, modify, read, lift, raise, alloc, len.
  destruct w as [h vs [nm ens cf ws rf na ts]]. simpl in *. subst cf ws na.
  rewrite Hlc. simpl. unfold np.ndim, np.shape_from_end. rewrite Hsc, Hdc. simpl.
  rewrite Nat.eqb_refl. simpl. rewrite Hlc. simpl. rewrite Hsc. simpl.
  rewrite Hlold. simpl. unfold np.concatenate. rewrite Hso, Hsc. simpl.
  rewrite decide_True by reflexivity. simpl.
  assert (Hk : <[fresh (dom h) := np.mk (M + K :: [N; 3]) (np.data old ++ np.data c)
                                    (np.promote (np.dt old) (np.dt c))]> h !! lws
               = Some wold)
    by (rewrite lookup_insert_ne; [exact Hlws | by eapply fresh_loc_not_in]).
  rewrite Hk. unfold set_self, set_confs, set_arrays. simpl.
  rewrite lookup_insert_eq. simpl.
  repeat split; reflexivity.
Qed.

(** C4, at an input: the ensemble of two atoms with one weighted
    conformation. A batch of one frame without weights raises TypeError and
    leaves two frames in the stack; a frame with weights for three atoms
    raises ValueError (from [np.concatenate] on the weights, whose atom
    count is never validated) and leaves two frames as well. *)
Lemma C4_failed_addCoordset_witness :
  let after := exec (addCoordset (PArray 5%positive) None) weighted in
  let after' := exec (addCoordset (PArray 3%positive) (Some (PArray 4%positive))) weighted in
  self weighted
    = Ensemble.mk "weighted" [None] (Some 6%positive) (Some 7%positive) None (Some 2) [None]
  ∧ (result (addCoordset (PArray 5%positive) None) weighted = Raise TypeError
     ∧ shape_at (_confs (self weighted)) weighted = Some [1; 2; 3]
     ∧ shape_at (_confs (self after)) after = Some [2; 2; 3]
     ∧ _weights (self after) = _weights (self weighted)
     ∧ _ensemble (self after) = _ensemble (self weighted)
     ∧ _transformations (self after) = _transformations (self weighted))
  ∧ result (addCoordset (PArray 3%positive) (Some (PArray 4%positive))) weighted
    = Raise ValueError
  ∧ shape_at (_confs (self after')) after' = Some [2; 2; 3]
  ∧ shape_at (_weights (self after')) after' = Some [1; 2; 1]
  ∧ _ensemble (self after') = [None]
  ∧ _transformations (self after') = [None].
Proof.
  intros after after'.
  split; [reflexivity|]. split; [|repeat split; reflexivity].
  apply (C4_failed_addCoordset_keeps_the_new_frames weighted 6%positive 7%positive 5%positive
           (f64 [1; 2; 3] (np.data frame2a)) (f64 [1; 2; 1] (np.data weights2)) batch1 1 1 2);
    reflexivity.
Defined.

(** C7 (code defect). On an ensemble that holds conformations and weights,
    [addCoordset] without weights never succeeds: whatever passes the
    checks reaches [np.ones(n_confs, n_atoms, 1)], which raises TypeError
    (an integer is not a dtype), so no weight of 1 is ever appended. *)
Theorem C7_padding_with_ones_never_succeeds (coords : pyobj) (w : world) :
  is_Some (_confs (self w)) →
  is_Some (_weights (self w)) →
  ∃ e, result (addCoordset coords None) w = Raise e.
Proof.
  intros [lc Hc] [lw Hw]. unfold result, addCoordset, addCoordset_weights.
  unfold catch_AttributeError, call_getCoordinates, getCoordinates.
  unfold mbind, M_bind, mret, M_ret, gets, modify, read, lift, raise, alloc, len.
  destruct w as [h vs [nm ens cf ws rf na ts]]. simpl in *. subst cf ws.
  repeat (case_match; simpl in *; simplify_eq; eauto).
Qed.

(** C7, at an input: the ensemble of two atoms with one weighted
    conformation; a further frame without weights raises TypeError. *)
Lemma C7_padding_with_ones_witness :
  is_Some (_confs (self weighted))
  ∧ is_Some (_weights (self weighted))
  ∧ (∃ e, result (addCoordset (PArray 3%positive) None) weighted = Raise e)
  ∧ result (addCoordset (PArray 3%positive) None) weighted = Raise TypeError.
Proof.
  split; [by eexists|]. split; [by eexists|]. split; [|reflexivity].
  apply C7_padding_with_ones_never_succeeds; by eexists.
Defined.

(** ** delCoordset *)

Lemma py_index_of_nat (n i : nat) : i < n → py_index n (Z.of_nat i) = Some i.
Proof.
  intros H. unfold py_index. rewrite decide_True by lia. by rewrite Nat2Z.id.
Qed.

(** Dropping the frames touches neither the views nor the slots. *)
Lemma delCoordset_arrays_frame (which : list bool) (w : world) :
  let w' := exec (delCoordset_arrays which) w in
  views w' = views w
  ∧ _ensemble (self w') = _ensemble (self w)
  ∧ _transformations (self w') = _transformations (self w).
Proof.
  unfold exec, delCoordset_arrays.
  unfold mbind, M_bind, mret, M_ret, gets, modify, read, lift, raise, alloc.
  destruct w as [h vs [nm ens cf ws rf na ts]]. simpl.
  repeat (case_match; simpl in *; simplify_eq; try done).
Qed.

(** [delCoordset] on one valid index: drop the frame, then pop the slot. *)
Lemma delCoordset_int (w : world) (i : nat) :
  i < length (_ensemble (self w)) →
  delCoordset (IInt (Z.of_nat i)) w
  = (delCoordset_arrays (<[i := false]> (replicate (length (_ensemble (self w))) true));;
     delCoordset_pop (Z.of_nat i);; mret tt) w.
Proof.
  intros Hlt. unfold delCoordset, len.
  unfold mbind at 1, M_bind at 1, gets at 1. simpl.
  rewrite (py_index_of_nat _ _ Hlt). reflexivity.
Qed.

Lemma pop_of_nat {A} (l : list A) (i : nat) :
  pop l (Z.of_nat i) = (λ x, (x, delete i l)) <$> l !! i.
Proof.
  unfold pop. destruct (l !! i) as [x|] eqn:Hx; simpl.
  - rewrite (py_index_of_nat _ _ (lookup_lt_Some _ _ _ Hx)). simpl. by rewrite Hx.
  - unfold py_index. apply lookup_ge_None in Hx.
    rewrite decide_False by lia. rewrite decide_False by lia. reflexivity.
Qed.

(** Popping slot [i] when it holds the view [v]. *)
Lemma delCoordset_pop_view (w : world) (i : nat) (v : loc) (c : Conformation.t) :
  _ensemble (self w) !! i = Some (Some v) →
  views w !! v = Some c →
  result (delCoordset_pop (Z.of_nat i)) w = Ok tt →
  let w' := exec (delCoordset_pop (Z.of_nat i)) w in
  views w' = <[v := Conformation.mk None None (Conformation._name c)]> (views w)
  ∧ _ensemble (self w') = delete i (_ensemble (self w))
  ∧ _transformations (self w') = delete i (_transformations (self w)).
Proof.
  intros Hens Hv.
  assert (Hrun : delCoordset_pop (Z.of_nat i) w
                 = match _transformations (self w) !! i with
                   | Some _ =>
                       (Ok tt,
                        World (arrays w)
                          (<[v := Conformation.mk None None (Conformation._name c)]> (views w))
                          (set_transformations (delete i (_transformations (self w)))
                             (set_ensemble (delete i (_ensemble (self w))) (self w))))
                   | None =>
                       (Raise IndexError,
                        World (arrays w)
                          (<[v := Conformation.mk None None (Conformation._name c)]> (views w))
                          (set_ensemble (delete i (_ensemble (self w))) (self w)))
                   end).
  { unfold delCoordset_pop.
    unfold mbind at 1, M_bind at 1, gets at 1. rewrite pop_of_nat, Hens. simpl.
    unfold mbind, M_bind, gets, modify, read_view, write_view, raise. simpl.
    rewrite Hv. simpl. rewrite pop_of_nat.
    destruct (_transformations (self w) !! i); reflexivity. }
  unfold result, exec. rewrite Hrun.
  destruct (_transformations (self w) !! i); [|discriminate].
  intros _. simpl. auto.
Qed.

(** The effect of a successful [delCoordset(i)] on the views and the slots. *)
Lemma delCoordset_int_effect
    (w : world) (i : nat) (v : loc) (c : Conformation.t) :
  _ensemble (self w) !! i = Some (Some v) →
  views w !! v = Some c →
  result (delCoordset (IInt (Z.of_nat i))) w = Ok tt →
  let w' := exec (delCoordset (IInt (Z.of_nat i))) w in
  views w' !! v = Some (Conformation.mk None None (Conformation._name c))
  ∧ _ensemble (self w') = delete i (_ensemble (self w))
  ∧ _transformations (self w') = delete i (_transformations (self w))
  ∧ ∀ v', v' ≠ v → views w' !! v' = views w !! v'.
Proof.
  intros Hens Hv. pose proof (lookup_lt_Some _ _ _ Hens) as Hlt.
  unfold result, exec. rewrite (delCoordset_int _ _ Hlt).
  set (which := <[i:=false]> _).
  pose proof (delCoordset_arrays_frame which w) as (Hvs & He & Ht).
  unfold exec in Hvs, He, Ht.
  unfold mbind, M_bind, mret, M_ret.
  destruct (delCoordset_arrays which w) as [[[]|e] w1]; simpl; [|discriminate].
  simpl in Hvs, He, Ht.
  rewrite <- He in Hens. rewrite <- Hvs in Hv.
  pose proof (delCoordset_pop_view w1 i v c Hens Hv) as Hpop.
  unfold result, exec in Hpop.
  destruct (delCoordset_pop (Z.of_nat i) w1) as [[[]|e] w2]; simpl; [|discriminate].
  simpl in Hpop. intros _. destruct (Hpop eq_refl) as (Hvs2 & He2 & Ht2).
  rewrite Hvs2, He2, Ht2, Hvs, He, Ht.
  split; [apply lookup_insert_eq|]. split; [reflexivity|]. split; [reflexivity|].
  intros v' Hne. by rewrite lookup_insert_ne.
Qed.

(** Deleting conformation [i] detaches the view cached in slot [i] (index
    and owner cleared, name kept), removes slot [i] from the views and the
    transformations, and leaves every other view object as it was. *)
Theorem delCoordset_detaches_the_removed_view
    (w : world) (i : nat) (v : loc) (c : Conformation.t) :
  _ensemble (self w) !! i = Some (Some v) →
  views w !! v = Some c →
  result (delCoordset (IInt (Z.of_nat i))) w = Ok tt →
  let w' := exec (delCoordset (IInt (Z.of_nat i))) w in
  views w' !! v = Some (Conformation.mk None None (Conformation._name c))
  ∧ _ensemble (self w') = delete i (_ensemble (self w))
  ∧ _transformations (self w') = delete i (_transformations (self w))
  ∧ ∀ v', v' ≠ v → views w' !! v' = views w !! v'.
Proof. exact (delCoordset_int_effect w i v c). Qed.

(** At an input: deleting conformation 2 of the five detaches view 3, the
    one cached for it. *)
Lemma delCoordset_detaches_witness :
  let after := exec (delCoordset (IInt 2)) five in
  _ensemble (self five) !! 2 = Some (Some 3%positive)
  ∧ views five !! 3%positive = Some (Conformation.mk (Some this_ensemble) (Some 2%Z) "2")
  ∧ result (delCoordset (IInt 2)) five = Ok tt
  ∧ views after !! 3%positive = Some (Conformation.mk None None "2")
  ∧ _ensemble (self after) = [Some 1%positive; Some 2%positive; Some 4%positive; Some 5%positive].
Proof.
  intros after.
  destruct (delCoordset_detaches_the_removed_view five 2 3%positive
              (Conformation.mk (Some this_ensemble) (Some 2%Z) "2")
              eq_refl eq_refl eq_refl) as (H1 & H2 & _).
  split; [reflexivity|]. split; [reflexivity|]. split; [reflexivity|].
  split; [exact H1 | exact H2].
Defined.

(** C5 (code defect). [delCoordset] clears the index and the owner of the
    view it removes, but it never touches the views that move down: a view
    cached in a later slot j > i is afterwards in slot j - 1 and still holds
    the [_index] it had, so [getIndex] still reports j, not j - 1. *)
Theorem C5_surviving_views_keep_stale_indices
    (w : world) (i j : nat) (v vj : loc) (c cj : Conformation.t) :
  _ensemble (self w) !! i = Some (Some v) →
  views w !! v = Some c →
  i < j →
  _ensemble (self w) !! j = Some (Some vj) →
  vj ≠ v →
  views w !! vj = Some cj →
  result (delCoordset (IInt (Z.of_nat i))) w = Ok tt →
  let w' := exec (delCoordset (IInt (Z.of_nat i))) w in
  _ensemble (self w') !! (j - 1) = Some (Some vj)
  ∧ result (Conformation_getIndex vj) w' = Ok (Conformation._index cj)
  ∧ result (Conformation_getIndex v) w' = Ok None
  ∧ result (Conformation_getEnsemble v) w' = Ok None.
Proof.
  intros Hens Hv Hij Hj Hne Hvj Hok w'.
  destruct (delCoordset_int_effect w i v c Hens Hv Hok)
    as (Hdet & He & _ & Hother).
  fold w' in Hdet, He, Hother.
  split.
  - rewrite He, list_lookup_delete_ge by lia.
    replace (S (j - 1)) with j by lia. exact Hj.
  - unfold result, Conformation_getIndex, Conformation_getEnsemble, mbind, M_bind, read_view.
    rewrite (Hother vj Hne), Hvj, Hdet. auto.
Qed.

(** C5, at an input: five conformations, every view cached, conformation 2
    deleted. The view cached for conformation 4 is now in slot 3 and still
    reports index 4 (reading its coordinates then fails with IndexError);
    the one for conformation 3 is in slot 2 and reports 3. *)
Lemma C5_five_conformations_witness :
  let after := exec (delCoordset (IInt 2)) five in
  _ensemble (self five)
    = [Some 1%positive; Some 2%positive; Some 3%positive; Some 4%positive; Some 5%positive]
  ∧ result (Conformation_getIndex 5%positive) five = Ok (Some 4%Z)
  ∧ result (delCoordset (IInt 2)) five = Ok tt
  ∧ (_ensemble (self after) !! 3 = Some (Some 5%positive)
     ∧ result (Conformation_getIndex 5%positive) after = Ok (Some 4%Z)
     ∧ result (Conformation_getIndex 3%positive) after = Ok None
     ∧ result (Conformation_getEnsemble 3%positive) after = Ok None)
  ∧ _ensemble (self after) !! 2 = Some (Some 4%positive)
  ∧ result (Conformation_getIndex 4%positive) after = Ok (Some 3%Z)
  ∧ result (Conformation_getCoordinates 5%positive) after = Raise IndexError.
Proof.
  intros after.
  split; [reflexivity|]. split; [reflexivity|]. split; [reflexivity|].
  split; [|repeat split; reflexivity].
  apply (C5_surviving_views_keep_stale_indices five 2 4 3%positive 5%positive
           (Conformation.mk (Some this_ensemble) (Some 2%Z) "2")
           (Conformation.mk (Some this_ensemble) (Some 4%Z) "4"));
    (reflexivity || lia || discriminate).
Defined.

(** ** getRMSDs *)

(** Without weights [getCoordsets] returns a copy of the coordinate stack. *)
Lemma getCoordsets_without_weights (w : world) (lc : loc) (cs : np.ndarray) :
  _weights (self w) = None → _confs (self w) = Some lc → arrays w !! lc = Some cs →
  getCoordsets w
  = (Ok (Some (fresh (dom (arrays w)))),
     set_arrays (<[fresh (dom (arrays w)) := cs]> (arrays w)) w).
Proof.
  intros Hws Hcf Hlc. unfold getCoordsets.
  rewrite (bind_run _ _ _ _ _ (gets_run _ _)), Hcf.
  rewrite (bind_run _ _ _ _ _ (read_run _ _ _ Hlc)).
  rewrite (bind_run _ _ _ _ _ (gets_run _ _)), Hws.
  reflexivity.
Qed.

(** Without weights [getDeviations] returns the coordinate stack minus the
    reference. *)
Lemma getDeviations_without_weights
    (w : world) (lc lr : loc) (cs r d : np.ndarray) :
  _weights (self w) = None →
  _confs (self w) = Some lc → arrays w !! lc = Some cs →
  _coords (self w) = Some lr → arrays w !! lr = Some r →
  np.map2 PrimFloat.sub cs r = Ok d →
  ∃ l w', getDeviations w = (Ok (Some l), w')
          ∧ self w' = self w
          ∧ arrays w' !! l = Some d.
Proof.
  intros Hws Hcf Hlc Hrf Hlr Hd. unfold getDeviations.
  rewrite (bind_run _ _ _ _ _ (gets_run _ _)), Hcf.
  rewrite (bind_run _ _ _ _ _ (gets_run _ _)), Hrf.
  rewrite (bind_run _ _ _ _ _ (getCoordsets_without_weights _ _ _ Hws Hcf Hlc)).
  set (w1 := set_arrays _ w).
  assert (H1 : arrays w1 !! fresh (dom (arrays w)) = Some cs) by apply lookup_insert_eq.
  rewrite (bind_run _ _ _ _ _ (read_run _ _ _ H1)).
  assert (H2 : arrays w1 !! lr = Some r) by (by apply alloc_keeps).
  rewrite (bind_run _ _ _ _ _ (read_run _ _ _ H2)).
  unfold mbind at 1, M_bind at 1, lift at 1. rewrite Hd.
  rewrite (bind_run _ _ _ _ _ (alloc_run _ _)).
  eexists _, _. split; [reflexivity|]. split; [reflexivity|]. apply lookup_insert_eq.
Qed.

(** C2 (code defect). Without weights, for conformations of shape (K, N, 3)
    and a reference of shape (N, 3), [getRMSDs] returns for conformation i
    the square root of: the squared deviations summed over the axes, times
    the number 1, summed over the atoms, divided by the number 1. Both
    weight sums are the constant 1, so the divisor is 1 and not the atom
    count N: the result is the root of the sum, not of the mean. *)
Theorem C2_getRMSDs_without_weights_divides_by_one
    (w : world) (lc lr : loc) (cs r : np.ndarray) (K N : nat) :
  _weights (self w) = None →
  _confs (self w) = Some lc → arrays w !! lc = Some cs → np.shape cs = [K; N; 3] →
  _coords (self w) = Some lr → arrays w !! lr = Some r → np.shape r = [N; 3] →
  ∃ x, returned_array (getRMSDs w) = Some x
       ∧ np.shape x = [K]
       ∧ ∀ i, i < K →
           np.bget x [i]
           = PrimFloat.sqrt
               (np.sum_list
                  ((λ j, np.sum_list
                           ((λ k, let d := (np.bget cs [i; j; k] - np.bget r [j; k])%float in
                                  (d * d)%float) <$> seq 0 3)
                         * 1)%float <$> seq 0 N)
                / 1)%float.
Proof.
  intros Hws Hcf Hlc Hsc Hrf Hlr Hsr.
  destruct (map2_ok PrimFloat.sub cs r [K; N; 3]) as (d & Hd & Hds & Hdv).
  { rewrite Hsc, Hsr. unfold np.broadcast_shapes, reverse. simpl.
    by rewrite !bdim_refl. }
  destruct (sum_ok 2 3 (np.power2 d)) as (sq & Hsq & Hsqs & Hsqv).
  { simpl. by rewrite Hds. }
  change (np.shape (np.power2 d)) with (np.shape d) in Hsqs, Hsqv.
  rewrite Hds in Hsqs, Hsqv. change (delete 2 [K; N; 3]) with [K; N] in Hsqs, Hsqv.
  destruct (map2_ok PrimFloat.mul sq (np.scalar 1) [K; N]) as (wt & Hwt & Hwts & Hwtv).
  { rewrite Hsqs. apply broadcast_scalar. }
  destruct (sum_ok 1 N wt) as (tot & Htot & Htots & Htotv).
  { by rewrite Hwts. }
  rewrite Hwts in Htots, Htotv. change (delete 1 [K; N]) with [K] in Htots, Htotv.
  destruct (map2_ok PrimFloat.div tot (np.scalar 1) [K]) as (mn & Hmn & Hmns & Hmnv).
  { rewrite Htots. apply broadcast_scalar. }
  destruct (getDeviations_without_weights w lc lr cs r d Hws Hcf Hlc Hrf Hlr Hd)
    as (ld & w1 & Hdev & Hself & Hld).
  exists (np.sqrt mn).
  split; [|split].
  - unfold returned_array, getRMSDs.
    rewrite (bind_run _ _ _ _ _ (gets_run _ _)), Hcf.
    rewrite (bind_run _ _ _ _ _ (gets_run _ _)), Hws.
    unfold mbind at 1, M_bind at 1, mret at 1, M_ret at 1.
    rewrite (bind_run _ _ _ _ _ Hdev).
    rewrite (bind_run _ _ _ _ _ (read_run _ _ _ Hld)).
    unfold mbind at 1, M_bind at 1, lift at 1. rewrite Hsq.
    unfold mbind at 1, M_bind at 1, lift at 1. rewrite Hwt.
    unfold mbind at 1, M_bind at 1, lift at 1. rewrite Htot.
    unfold mbind at 1, M_bind at 1, lift at 1. rewrite Hmn.
    rewrite (bind_run _ _ _ _ _ (alloc_run _ _)).
    apply lookup_insert_eq.
  - exact Hmns.
  - intros i Hi.
    unfold np.sqrt. rewrite bget_map1 by reflexivity. f_equal.
    rewrite Hmnv by solve_valid. rewrite bget_scalar. f_equal.
    rewrite Htotv by solve_valid. f_equal.
    apply Forall_fmap_ext_1, Forall_forall. intros j Hj%elem_of_seq. cbv beta.
    change (take 1 [i] ++ j :: drop 1 [i]) with [i; j].
    rewrite Hwtv by solve_valid. rewrite bget_scalar. f_equal.
    rewrite Hsqv by solve_valid. f_equal.
    apply Forall_fmap_ext_1, Forall_forall. intros k Hk%elem_of_seq. cbv beta zeta.
    change (take 2 [i; j] ++ k :: drop 2 [i; j]) with [i; j; k].
    unfold np.power2. rewrite bget_map1 by reflexivity.
    rewrite Hdv by solve_valid.
    replace (np.bget r [i; j; k]) with (np.bget r [j; k]); [reflexivity|].
    unfold np.bget, np.ndim. rewrite Hsr. reflexivity.
Qed.

(** C2, at an input: four atoms each displaced by (1, 0, 0) from the
    reference. The sum of squares is 4; [getRMSDs] returns sqrt(4 / 1) = 2,
    where the root mean square deviation is sqrt(4 / 4) = 1. *)
Lemma C2_getRMSDs_four_atoms_witness :
  self four_atoms
    = Ensemble.mk "four" [None] (Some 3%positive) None (Some 1%positive) (Some 4) [None]
  ∧ arrays four_atoms !! 3%positive = Some (f64 [1; 4; 3] (np.data conf4))
  ∧ arrays four_atoms !! 1%positive = Some ref4
  ∧ (∃ x, returned_array (getRMSDs four_atoms) = Some x ∧ np.shape x = [1])
  ∧ returned_array (getRMSDs four_atoms) = Some (f64 [1] [2%float])
  ∧ rmsd_unit_weights conf4 ref4 = 1%float.
Proof.
  split; [reflexivity|]. split; [reflexivity|]. split; [reflexivity|].
  split; [|split; reflexivity].
  destruct (C2_getRMSDs_without_weights_divides_by_one four_atoms 3%positive 1%positive
              (f64 [1; 4; 3] (np.data conf4)) ref4 1 4
              eq_refl eq_refl eq_refl eq_refl eq_refl eq_refl eq_refl) as (x & Hx & Hs & _).
  eauto.
Defined.

(** ** Unbound names: transform and getSumOfWeights *)

Lemma count_None_positive {A} (ts : list (option A)) :
  (0 <? length (filter (λ t, t = None) ts)) = negb (bool_decide (Forall is_Some ts)).
Proof.
  induction ts as [|[x|] ts IH].
  - reflexivity.
  - rewrite filter_cons_False by discriminate. rewrite IH. f_equal.
    apply bool_decide_ext. rewrite Forall_cons. intuition eauto.
  - rewrite filter_cons_True by reflexivity. symmetry.
    apply negb_true_iff, bool_decide_eq_false. rewrite Forall_cons.
    intros [[? [=]] _].
Qed.

(** C8 (code defect). [transform] raises EnsembleError exactly when a
    transformation slot is None, and leaves the ensemble untouched then; but
    when every slot is filled it goes on to read [self.conformations], an
    attribute that no [Ensemble] has, and raises AttributeError: it never
    applies a transformation and never returns normally. *)
Theorem C8_transform_never_returns GF_transform (w : world) :
  transform GF_transform w
  = (Raise (if bool_decide (Forall is_Some (_transformations (self w)))
            then AttributeError else EnsembleError), w).
Proof.
  unfold transform, mbind, M_bind, gets. simpl.
  rewrite count_None_positive.
  destruct (bool_decide (Forall is_Some (_transformations (self w)))); reflexivity.
Qed.

Example transform_after_superimpose :
  Forall is_Some (_transformations (self superimposed))
  ∧ result (transform no_transform) superimposed = Raise AttributeError.
Proof. split; [repeat constructor; eexists; reflexivity | reflexivity]. Qed.

(** C9 (code defect). [getSumOfWeights] evaluates [prody.Ensemble] for its
    [isinstance] test, and the module never binds the name [prody] (it only
    imports names from it): whatever the argument, the call raises NameError,
    never TypeError, never None, never a sum. *)
Theorem C9_getSumOfWeights_raises_NameError (ensemble : pyobj) (w : world) :
  getSumOfWeights ensemble w = (Raise NameError, w).
Proof. reflexivity. Qed.

(** ** getSumOfWeights past the name lookup *)

(** [getWeights] returns a copy of the weights. *)
Lemma getWeights_copy (w : world) (lw : loc) (wa : np.ndarray) :
  _weights (self w) = Some lw → arrays w !! lw = Some wa →
  getWeights w
  = (Ok (Some (fresh (dom (arrays w)))),
     set_arrays (<[fresh (dom (arrays w)) := wa]> (arrays w)) w).
Proof.
  intros Hws Hlw. unfold getWeights.
  rewrite (bind_run _ _ _ _ _ (gets_run _ _)), Hws.
  rewrite (bind_run _ _ _ _ _ (read_run _ _ _ Hlw)).
  rewrite (bind_run _ _ _ _ _ (alloc_run _ _)). reflexivity.
Qed.


(** ** Guards *)

(** [iterimpose] and [superimpose] refuse an ensemble without conformations:
    AttributeError, and nothing is changed. *)
Theorem alignment_needs_conformations superimpose _getRMSD (fuel : nat) (rmsd : float)
    (w : world) :
  _confs (self w) = None →
  iterimpose superimpose _getRMSD fuel rmsd w = Some (Raise AttributeError, w)
  ∧ superimpose_ensemble superimpose w = (Raise AttributeError, w).
Proof.
  intros H. unfold iterimpose, superimpose_ensemble, iterimpose_enter, len_confs.
  unfold mbind, M_bind, gets. rewrite H. split; reflexivity.
Qed.

Lemma alignment_needs_conformations_witness :
  _confs (self (init "empty")) = None
  ∧ iterimpose fit_nothing plain_rmsd 3 0.5 (init "empty")
    = Some (Raise AttributeError, init "empty")
  ∧ superimpose_ensemble fit_nothing (init "empty") = (Raise AttributeError, init "empty").
Proof.
  split; [reflexivity|].
  by apply alignment_needs_conformations.
Defined.

(** ** The candidate reference of iterimpose is the mean *)





(** ** iterimpose *)

Section Iterimpose.

Variable superimpose :
  np.ndarray → option np.ndarray → option np.ndarray → outcome (np.ndarray * transformation).
Variable _getRMSD :
  option np.ndarray → np.ndarray → option np.ndarray → outcome float.

Local Abbreviation step := (iterimpose_step superimpose _getRMSD).
Local Abbreviation loop := (iterimpose_loop superimpose _getRMSD).
Local Abbreviation pass := (pass superimpose _getRMSD).
Local Abbreviation passes := (passes superimpose _getRMSD).

(** Computing the candidate reads the store and changes nothing. *)
Lemma new_reference_pure weights weightsum length (w : world) :
  snd (new_reference weights weightsum length w) = w.
Proof.
  unfold new_reference. unfold_M. simpl.
  repeat (case_match; simpl in *; simplify_eq; try reflexivity).
Qed.

Lemma read_opt_pure (l : option loc) (w : world) : snd (read_opt l w) = w.
Proof.
  unfold read_opt. unfold_M.
  repeat (case_match; simpl in *; simplify_eq; try reflexivity).
Qed.

(** The pass of the code is the pass of the specification. *)
Lemma iterimpose_step_pass weights weightsum length (w : world) (r : float) (w' : world) :
  step weights weightsum length w = (Ok r, w') ↔ pass weights weightsum length w r w'.
Proof.
  split.
  - unfold iterimpose_step. unfold mbind at 1, M_bind at 1.
    destruct (_superimpose superimpose w) as [[[]|e] w1] eqn:Hs; [|discriminate].
    unfold mbind at 1, M_bind at 1.
    pose proof (new_reference_pure weights weightsum length w1) as Hp.
    destruct (new_reference weights weightsum length w1) as [[newxyz|e] w2] eqn:Hn;
      [|discriminate].
    simpl in Hp. subst w2.
    unfold mbind at 1, M_bind at 1, gets at 1.
    unfold mbind at 1, M_bind at 1.
    pose proof (read_opt_pure (_coords (self w1)) w1) as Hp.
    destruct (read_opt (_coords (self w1)) w1) as [[old|e] w2] eqn:Hr; [|discriminate].
    simpl in Hp. subst w2.
    unfold mbind at 1, M_bind at 1, lift at 1.
    destruct (_getRMSD old newxyz None) as [r'|e] eqn:Hg; [|discriminate].
    unfold mbind at 1, M_bind at 1.
    destruct (adopt newxyz w1) as [[[]|e] w2] eqn:Ha.
    + intros [= -> ->]. econstructor; eauto. unfold exec. by rewrite Ha.
    + discriminate.
  - intros [w1 newxyz old Hs Hn Hr Hg ->].
    unfold iterimpose_step. unfold mbind at 1, M_bind at 1. rewrite Hs.
    unfold mbind at 1, M_bind at 1. rewrite Hn.
    unfold mbind at 1, M_bind at 1, gets at 1.
    unfold mbind at 1, M_bind at 1. rewrite Hr.
    unfold mbind at 1, M_bind at 1, lift at 1. rewrite Hg.
    reflexivity.
Qed.

(** Enough passes, the last one below the threshold: the loop returns there. *)
Lemma loop_reaches rmsd weights weightsum length n (w : world) (r : float) (w' : world) :
  passes rmsd weights weightsum length n w r w' →
  (rmsd <? r)%float = false →
  ∀ r0 fuel, (rmsd <? r0)%float = true → n ≤ fuel →
    loop fuel rmsd weights weightsum length r0 w = Some (Ok tt, w').
Proof.
  induction 1 as [w r w' Hp | n w r w1 rl w' Hp Hr _ IH]; intros Hlast r0 fuel Hr0 Hfuel.
  - destruct fuel as [|fuel]; [lia|]. simpl. rewrite Hr0.
    apply iterimpose_step_pass in Hp. rewrite Hp.
    destruct fuel; simpl; rewrite Hlast; reflexivity.
  - destruct fuel as [|fuel]; [lia|]. simpl. rewrite Hr0.
    apply iterimpose_step_pass in Hp. rewrite Hp.
    apply IH; [assumption | assumption | lia].
Qed.

(** A normal return of the loop comes from such passes. *)
Lemma loop_returned rmsd weights weightsum length fuel :
  ∀ r0 (w w' : world),
    (rmsd <? r0)%float = true →
    loop fuel rmsd weights weightsum length r0 w = Some (Ok tt, w') →
    ∃ n r, 1 ≤ n ≤ fuel
           ∧ passes rmsd weights weightsum length n w r w'
           ∧ (rmsd <? r)%float = false.
Proof.
  induction fuel as [|fuel IH]; intros r0 w w' Hr0; simpl; rewrite Hr0; [discriminate|].
  destruct (step weights weightsum length w) as [[r|e] w1] eqn:Hs; [|discriminate].
  apply iterimpose_step_pass in Hs. intros Hloop.
  destruct (rmsd <? r)%float eqn:Hr.
  - destruct (IH r w1 w' Hr Hloop) as (n & rl & Hn & Hps & Hlast).
    exists (S n), rl. split; [lia|]. split; [|assumption].
    eapply passes_more; eassumption.
  - assert (w' = w1) as ->.
    { destruct fuel; simpl in Hloop; rewrite Hr in Hloop; congruence. }
    exists 1, r. split; [lia|]. split; [|assumption].
    by apply passes_last.
Qed.

(** The statements before the loop change nothing. *)
Lemma iterimpose_enter_pure (w : world) : snd (iterimpose_enter w) = w.
Proof.
  unfold iterimpose_enter, len_confs, len. unfold_M.
  repeat (case_match; simpl in *; simplify_eq; try reflexivity).
Qed.

(** The candidate depends on the conformations and the weights only. *)
Lemma new_reference_frame weights weightsum length (w1 w2 : world) (x : np.ndarray) :
  new_reference weights weightsum length w1 = (Ok x, w1) →
  _confs (self w2) = _confs (self w1) →
  (∀ l a, arrays w1 !! l = Some a → arrays w2 !! l = Some a) →
  new_reference weights weightsum length w2 = (Ok x, w2).
Proof.
  unfold new_reference. unfold_M. simpl. intros H Hc Hsub. rewrite Hc.
  destruct (_confs (self w1)) as [lc|]; [|discriminate]. simpl in *.
  destruct (arrays w1 !! lc) as [cs|] eqn:Hlc; [|discriminate].
  rewrite (Hsub _ _ Hlc). simpl in *.
  destruct weights as [lw|]; simpl in *.
  - destruct (arrays w1 !! lw) as [wa|] eqn:Hlw; [|discriminate].
    rewrite (Hsub _ _ Hlw). simpl in *.
    repeat (case_match; simpl in *; simplify_eq; try congruence).
  - repeat (case_match; simpl in *; simplify_eq; try congruence).
Qed.

(** After a pass the reference is the mean of the conformations as they
    stand. *)
Lemma pass_adopts_the_mean weights weightsum length (w : world) (r : float) (w' : world) :
  pass weights weightsum length w r w' →
  ∃ l newxyz, _coords (self w') = Some l
              ∧ arrays w' !! l = Some newxyz
              ∧ new_reference weights weightsum length w' = (Ok newxyz, w').
Proof.
  intros [w1 newxyz old Hs Hn Hr Hg ->].
  exists (fresh (dom (arrays w1))), newxyz.
  unfold exec, adopt, alloc. unfold_M. simpl.
  split; [reflexivity|]. split; [apply lookup_insert_eq|].
  eapply new_reference_frame; [exact Hn | reflexivity |].
  simpl. intros l a Hl. rewrite lookup_insert_ne; [exact Hl|].
  by eapply fresh_loc_not_in.
Qed.

Lemma passes_last_pass rmsd weights weightsum length n (w : world) (r : float) (w' : world) :
  passes rmsd weights weightsum length n w r w' →
  ∃ w_last, pass weights weightsum length w_last r w'.
Proof. induction 1; eauto. Qed.

(** When the statements before the loop succeed: there is at least one
    conformation, [weights] is the weight array of the ensemble, [weightsum]
    its sum over the conformations, [length] the number of slots. *)
Lemma iterimpose_enter_spec (w : world) weights weightsum length :
  result iterimpose_enter w = Ok (weights, weightsum, length) ↔
  (∃ lc cs k, _confs (self w) = Some lc ∧ arrays w !! lc = Some cs
              ∧ np.shape cs !! 0 = Some (S k))
  ∧ weights = _weights (self w)
  ∧ length = Datatypes.length (_ensemble (self w))
  ∧ match weights with
    | None => weightsum = None
    | Some lw => ∃ wa s, arrays w !! lw = Some wa ∧ np.sum 0 wa = Ok s ∧ weightsum = Some s
    end.
Proof.
  unfold result, iterimpose_enter, len_confs, len. unfold_M.
  destruct w as [h vs [nm ens cf ws rf na ts]]. simpl. split.
  - intros H.
    repeat (case_match; simpl in *; simplify_eq); naive_solver.
  - intros ((lc & cs & k & -> & Hlc & Hk) & -> & -> & Hw).
    simpl. rewrite Hlc. simpl. rewrite Hk. simpl.
    destruct ws as [lw|]; simpl.
    + destruct Hw as (wa & s & -> & -> & ->). reflexivity.
    + by subst.
Qed.


End Iterimpose.


